(** * Authelia: the authorization-endpoint builder and two storage-facing helpers

    A shallow embedding of
      - internal/handlers/handler_authz_builder.go  (AuthzBuilder and Build),
      - internal/handlers/webauthn.go               (getWebAuthnUser),
      - internal/storage/sql_provider.go            (LoadPreferred2FAMethod),
    followed by the properties proved about them.

    Conventions.  A Go method with a pointer receiver that mutates the
    receiver and returns it ([func (b *AuthzBuilder) WithX(...) *AuthzBuilder])
    is a function from builder states to builder states.  A nil-able pointer
    or func value is an [option].  A Go [error] result is an [option error]
    ([None] is nil).  Calls to the logger change nothing that is observed here
    and are left out. *)

From Stdlib Require Import ZArith List Ascii String.
From stdpp Require Import base decidable option list strings.
Import ListNotations.

Local Open Scope Z_scope.
Local Open Scope string_scope.

(** ** package time *)
Module time.
(** [time.Duration] is an int64 count of nanoseconds. *)
Definition Duration : Type := Z.
Definition Nanosecond : Duration := 1.
Definition Second : Duration := 1000000000 * Nanosecond.
End time.

(** ** Go errors

    The values of the [error] interface that the embedded code can tell
    apart: the sentinel [sql.ErrNoRows], an opaque error carrying its message
    ([errors.New]), and an error that wraps another one ([fmt.Errorf] with the
    verb [%w]). *)
Inductive error : Type :=
  | sql_ErrNoRows
  | errors_New (msg : string)
  | wrapError (msg : string) (err : error).

#[global] Instance error_eq_dec : EqDecision error.
Proof. solve_decision. Defined.

(** [err.Error()] *)
Definition Error (e : error) : string :=
  match e with
  | sql_ErrNoRows => "sql: no rows in result set"
  | errors_New msg => msg
  | wrapError msg _ => msg
  end.

(** [errors.Unwrap(err)] *)
Definition errors_Unwrap (e : error) : option error :=
  match e with
  | wrapError _ inner => Some inner
  | _ => None
  end.

(** [errors.Is(err, target)]: walks the chain of wrapped errors, comparing
    each link with the target. *)
Fixpoint errors_Is (err target : error) : bool :=
  if decide (err = target) then true
  else match err with
       | wrapError _ inner => errors_Is inner target
       | _ => false
       end.

(** ** package schema: the configuration fields the builder reads *)
Module schema.
Record AuthenticationBackend := {
  AuthenticationBackend_RefreshInterval : string
}.
Record SessionConfiguration := {
  Session_Domain : string
}.
Record Configuration := {
  Configuration_AuthenticationBackend : AuthenticationBackend;
  Configuration_Session : SessionConfiguration
}.
Record ServerAuthzEndpointAuthnStrategy := {
  Name : string
}.
Record ServerAuthzEndpointConfig := {
  Implementation : string;
  AuthnStrategies : list ServerAuthzEndpointAuthnStrategy
}.
End schema.

(** ** package handlers: data *)

(** [*url.URL]; only its absence (nil) matters to the builder. *)
Definition URL : Type := string.

Record AuthzDomain := {
  AuthzDomain_Name : string;
  PortalURL : option URL
}.

Record AuthzConfig := {
  RefreshInterval : time.Duration;
  Domains : list AuthzDomain
}.

#[global] Instance AuthzDomain_eq_dec : EqDecision AuthzDomain.
Proof. solve_decision. Defined.

#[global] Instance AuthzConfig_eq_dec : EqDecision AuthzConfig.
Proof. solve_decision. Defined.

(** Modelled from the spec: the strategy constructors
    [NewCookieSessionAuthnStrategy], [NewHeaderAuthorizationAuthnStrategy],
    [NewHeaderProxyAuthorizationAuthnStrategy],
    [NewHeaderAuthRequestProxyAuthorizationAuthnStrategy] and
    [NewHeaderLegacyAuthnStrategy] are called by the builder but declared
    elsewhere.  The spec's data model gives a strategy instance a variant tag
    out of five and, for CookieSession, a bound RefreshInterval; a value of
    this type is the constructor call that made the instance. *)
Inductive AuthnStrategy : Type :=
  | NewCookieSessionAuthnStrategy (refreshInterval : time.Duration)
  | NewHeaderAuthorizationAuthnStrategy
  | NewHeaderProxyAuthorizationAuthnStrategy
  | NewHeaderAuthRequestProxyAuthorizationAuthnStrategy
  | NewHeaderLegacyAuthnStrategy.

#[global] Instance AuthnStrategy_eq_dec : EqDecision AuthnStrategy.
Proof. solve_decision. Defined.

(** The variant tags of the spec's data model. *)
Inductive StrategyTag : Type :=
  | CookieSession
  | HeaderAuthorization
  | HeaderProxyAuthorization
  | HeaderAuthRequestProxyAuthorization
  | HeaderLegacy.

Definition tag_of (s : AuthnStrategy) : StrategyTag :=
  match s with
  | NewCookieSessionAuthnStrategy _ => CookieSession
  | NewHeaderAuthorizationAuthnStrategy => HeaderAuthorization
  | NewHeaderProxyAuthorizationAuthnStrategy => HeaderProxyAuthorization
  | NewHeaderAuthRequestProxyAuthorizationAuthnStrategy =>
      HeaderAuthRequestProxyAuthorization
  | NewHeaderLegacyAuthnStrategy => HeaderLegacy
  end.

(** The package-level functions that [Build] stores in the four function
    slots of an [Authz], by name.  One type for all of them, so that two
    slots can be compared. *)
Inductive AuthzFunc : Type :=
  | authzObjectVerifyStandard
  | authzHandleAuthorizedStandard
  | authzGetObjectImplLegacy
  | authzGetObjectImplForwardAuth
  | authzGetObjectImplAuthRequest
  | authzHandleUnauthorizedImplLegacy
  | authzHandleUnauthorizedImplForwardAuth
  | authzHandleUnauthorizedImplAuthRequest.

#[global] Instance AuthzFunc_eq_dec : EqDecision AuthzFunc.
Proof. solve_decision. Defined.

(** [Authz]: what [Build] returns.  A func-typed field that was never
    assigned is nil, here [None]. *)
Record Authz := {
  authz_config : AuthzConfig;
  authz_strategies : list AuthnStrategy;
  fObjectGet : option AuthzFunc;
  fObjectVerify : option AuthzFunc;
  fHandleAuthorized : option AuthzFunc;
  fHandleUnauthorized : option AuthzFunc
}.

(** ** Declarations used by the builder and made elsewhere

    The builder file refers to a type, constants and two functions of this
    repository whose declarations are in other files: the type
    [AuthzImplementation] with its three constants and its [String] method,
    the five strategy-name constants, the two refresh-policy constants of
    package schema, and [utils.ParseDurationString].  The embedding takes them
    as an interface and every property below holds for whatever they are.
    [AuthzImplementation_zero] is the Go zero value of the type, which the
    field [impl] of a builder holds until a [WithImplementation...] call. *)
Class Declarations := {
  AuthzImplementation : Type;
  AuthzImplementation_eq_dec :: EqDecision AuthzImplementation;
  AuthzImplementation_zero : AuthzImplementation;
  AuthzImplLegacy : AuthzImplementation;
  AuthzImplForwardAuth : AuthzImplementation;
  AuthzImplAuthRequest : AuthzImplementation;
  AuthzImplementation_String : AuthzImplementation -> string;
  AuthnStrategyCookieSession : string;
  AuthnStrategyHeaderAuthorization : string;
  AuthnStrategyHeaderProxyAuthorization : string;
  AuthnStrategyHeaderAuthRequestProxyAuthorization : string;
  AuthnStrategyHeaderLegacy : string;
  ProfileRefreshDisabled : string;
  ProfileRefreshAlways : string;
  ParseDurationString : string -> time.Duration * option error
}.

(** ** package handlers: the builder *)
Section Builder.
Context `{Declarations}.

Record AuthzBuilder := {
  config : AuthzConfig;
  impl : AuthzImplementation;
  strategies : list AuthnStrategy
}.

Definition set_config (b : AuthzBuilder) (c : AuthzConfig) : AuthzBuilder :=
  {| config := c; impl := impl b; strategies := strategies b |}.

Definition set_impl (b : AuthzBuilder) (i : AuthzImplementation) : AuthzBuilder :=
  {| config := config b; impl := i; strategies := strategies b |}.

Definition set_strategies (b : AuthzBuilder) (l : list AuthnStrategy) : AuthzBuilder :=
  {| config := config b; impl := impl b; strategies := l |}.

(** [NewAuthzBuilder]: only [config] is given; the other fields hold their
    zero values (a nil slice is the empty list). *)
Definition NewAuthzBuilder : AuthzBuilder :=
  {| config := {| RefreshInterval := time.Second * -1; Domains := [] |};
     impl := AuthzImplementation_zero;
     strategies := [] |}.

(** [WithStrategies(strategies ...AuthnStrategy)] *)
Definition WithStrategies (b : AuthzBuilder) (l : list AuthnStrategy) : AuthzBuilder :=
  set_strategies b l.

Definition WithStrategyCookie (b : AuthzBuilder) (refreshInterval : time.Duration)
  : AuthzBuilder :=
  set_strategies b (strategies b ++ [NewCookieSessionAuthnStrategy refreshInterval]).

Definition WithStrategyAuthorization (b : AuthzBuilder) : AuthzBuilder :=
  set_strategies b (strategies b ++ [NewHeaderAuthorizationAuthnStrategy]).

Definition WithStrategyProxyAuthorization (b : AuthzBuilder) : AuthzBuilder :=
  set_strategies b (strategies b ++ [NewHeaderProxyAuthorizationAuthnStrategy]).

Definition WithImplementationLegacy (b : AuthzBuilder) : AuthzBuilder :=
  set_impl b AuthzImplLegacy.

Definition WithImplementationForwardAuth (b : AuthzBuilder) : AuthzBuilder :=
  set_impl b AuthzImplForwardAuth.

Definition WithImplementationAuthRequest (b : AuthzBuilder) : AuthzBuilder :=
  set_impl b AuthzImplAuthRequest.

(** The [switch] of [WithConfig] on the refresh policy.  The error that
    [ParseDurationString] returns is dropped, as in the source. *)
Definition refreshIntervalOf (policy : string) : time.Duration :=
  if decide (policy = ProfileRefreshDisabled) then time.Second * -1
  else if decide (policy = ProfileRefreshAlways) then time.Second * 0
  else fst (ParseDurationString policy).

(** [WithConfig(config *schema.Configuration)]; [None] is the nil pointer. *)
Definition WithConfig (b : AuthzBuilder) (c : option schema.Configuration)
  : AuthzBuilder :=
  match c with
  | None => b
  | Some c =>
      let refreshInterval :=
        refreshIntervalOf
          (schema.AuthenticationBackend_RefreshInterval
             (schema.Configuration_AuthenticationBackend c)) in
      set_config b
        {| RefreshInterval := refreshInterval;
           Domains :=
             [ {| AuthzDomain_Name :=
                    "." ++ schema.Session_Domain (schema.Configuration_Session c);
                  PortalURL := None |} ] |}
  end.

(** The first [switch] of [WithEndpointConfig], on the implementation name.
    The cases are tried in order. *)
Definition withImplementationNamed (b : AuthzBuilder) (name : string) : AuthzBuilder :=
  if decide (name = AuthzImplementation_String AuthzImplForwardAuth)
  then WithImplementationForwardAuth b
  else if decide (name = AuthzImplementation_String AuthzImplAuthRequest)
  then WithImplementationAuthRequest b
  else WithImplementationLegacy b.

(** One round of the [for ... range config.AuthnStrategies] loop of
    [WithEndpointConfig]: the [switch] on the strategy's name has no
    [default], so a name that matches no case leaves the builder as it is. *)
Definition withStrategyNamed (b : AuthzBuilder)
    (strategy : schema.ServerAuthzEndpointAuthnStrategy) : AuthzBuilder :=
  let name := schema.Name strategy in
  if decide (name = AuthnStrategyCookieSession) then
    set_strategies b
      (strategies b ++ [NewCookieSessionAuthnStrategy (RefreshInterval (config b))])
  else if decide (name = AuthnStrategyHeaderAuthorization) then
    set_strategies b (strategies b ++ [NewHeaderAuthorizationAuthnStrategy])
  else if decide (name = AuthnStrategyHeaderProxyAuthorization) then
    set_strategies b (strategies b ++ [NewHeaderProxyAuthorizationAuthnStrategy])
  else if decide (name = AuthnStrategyHeaderAuthRequestProxyAuthorization) then
    set_strategies b
      (strategies b ++ [NewHeaderAuthRequestProxyAuthorizationAuthnStrategy])
  else if decide (name = AuthnStrategyHeaderLegacy) then
    set_strategies b (strategies b ++ [NewHeaderLegacyAuthnStrategy])
  else b.

(** [WithEndpointConfig(config schema.ServerAuthzEndpointConfig)] *)
Definition WithEndpointConfig (b : AuthzBuilder)
    (c : schema.ServerAuthzEndpointConfig) : AuthzBuilder :=
  let b := withImplementationNamed b (schema.Implementation c) in
  let b := WithStrategies b [] in
  fold_left withStrategyNamed (schema.AuthnStrategies c) b.

(** [WithAuthzConfig(config AuthzConfig)] *)
Definition WithAuthzConfig (b : AuthzBuilder) (c : AuthzConfig) : AuthzBuilder :=
  set_config b c.

(** The default strategies [Build] installs when the builder has none:
    the [switch b.impl] inside [if len(authz.strategies) == 0]. *)
Definition defaultStrategies (b : AuthzBuilder) : list AuthnStrategy :=
  if decide (impl b = AuthzImplLegacy) then
    [NewHeaderLegacyAuthnStrategy;
     NewCookieSessionAuthnStrategy (RefreshInterval (config b))]
  else if decide (impl b = AuthzImplAuthRequest) then
    [NewHeaderAuthRequestProxyAuthorizationAuthnStrategy;
     NewCookieSessionAuthnStrategy (RefreshInterval (config b))]
  else
    [NewHeaderProxyAuthorizationAuthnStrategy;
     NewCookieSessionAuthnStrategy (RefreshInterval (config b))].

Definition set_authz_strategies (a : Authz) (l : list AuthnStrategy) : Authz :=
  {| authz_config := authz_config a; authz_strategies := l;
     fObjectGet := fObjectGet a; fObjectVerify := fObjectVerify a;
     fHandleAuthorized := fHandleAuthorized a;
     fHandleUnauthorized := fHandleUnauthorized a |}.

Definition set_impl_funcs (a : Authz) (get unauthorized : AuthzFunc) : Authz :=
  {| authz_config := authz_config a; authz_strategies := authz_strategies a;
     fObjectGet := Some get; fObjectVerify := fObjectVerify a;
     fHandleAuthorized := fHandleAuthorized a;
     fHandleUnauthorized := Some unauthorized |}.

(** [Build()].  The loop over [b.strategies] between the struct literal and
    the length test only logs. *)
Definition Build (b : AuthzBuilder) : Authz :=
  let authz :=
    {| authz_config := config b;
       authz_strategies := strategies b;
       fObjectGet := None;
       fObjectVerify := Some authzObjectVerifyStandard;
       fHandleAuthorized := Some authzHandleAuthorizedStandard;
       fHandleUnauthorized := None |} in
  let authz :=
    if (Z.of_nat (length (authz_strategies authz)) =? 0)%Z
    then set_authz_strategies authz (defaultStrategies b)
    else authz in
  if decide (impl b = AuthzImplLegacy) then
    set_impl_funcs authz authzGetObjectImplLegacy authzHandleUnauthorizedImplLegacy
  else if decide (impl b = AuthzImplForwardAuth) then
    set_impl_funcs authz authzGetObjectImplForwardAuth
      authzHandleUnauthorizedImplForwardAuth
  else if decide (impl b = AuthzImplAuthRequest) then
    set_impl_funcs authz authzGetObjectImplAuthRequest
      authzHandleUnauthorizedImplAuthRequest
  else authz.

End Builder.

Arguments AuthzBuilder {_}.


(** ** package handlers: getWebAuthnUser (webauthn.go) *)
Module session.
(** [session.UserSession], the fields read here. *)
Record UserSession := {
  Username : string;
  DisplayName : string
}.
End session.

Section WebAuthn.
(** [models.WebauthnDevice] is declared elsewhere and only passed along. *)
Context {WebauthnDevice : Type}.

(** [models.WebauthnUser] *)
Record WebauthnUser := {
  Username : string;
  DisplayName : string;
  Devices : list WebauthnDevice
}.

(** [ctx.Providers.StorageProvider], the one method called here: given the
    username it returns the devices and an error. *)
Record StorageProvider := {
  LoadWebauthnDevicesByUsername : string -> list WebauthnDevice * option error
}.

(** [*middlewares.AutheliaCtx], reduced to the provider it carries. *)
Record AutheliaCtx := {
  Providers_StorageProvider : StorageProvider
}.

(** [getWebAuthnUser(ctx, userSession) (user *models.WebauthnUser, err error)] *)
Definition getWebAuthnUser (ctx : AutheliaCtx) (userSession : session.UserSession)
  : option WebauthnUser * option error :=
  let user :=
    {| Username := session.Username userSession;
       DisplayName := session.DisplayName userSession;
       Devices := [] |} in
  let user :=
    if decide (DisplayName user = "")
    then {| Username := Username user; DisplayName := Username user;
            Devices := Devices user |}
    else user in
  let '(devices, err) :=
    LoadWebauthnDevicesByUsername (Providers_StorageProvider ctx)
      (session.Username userSession) in
  let user :=
    {| Username := Username user; DisplayName := DisplayName user;
       Devices := devices |} in
  match err with
  | Some e => (None, Some e)
  | None => (Some user, None)
  end.

End WebAuthn.

Arguments WebauthnUser : clear implicits.
Arguments StorageProvider : clear implicits.
Arguments AutheliaCtx : clear implicits.

(** ** package storage: LoadPreferred2FAMethod (sql_provider.go) *)
Module storage.

(** [*SQLProvider], reduced to what [LoadPreferred2FAMethod] touches.
    [db_GetContext dest query args] is [p.db.GetContext(ctx, &dest, query,
    args...)]: it returns what the destination holds after the call and the
    error. *)
Record SQLProvider := {
  db_GetContext : string -> string -> list string -> string * option error;
  sqlSelectPreferred2FAMethod : string
}.

(** [fmt.Errorf(format, ..., err)] where the format ends in [: %w]: the
    message is the formatted prefix followed by [err.Error()], and the result
    unwraps to [err]. *)
Definition fmt_Errorf_w (prefix : string) (err : error) : error :=
  wrapError (prefix ++ Error err) err.

(** [LoadPreferred2FAMethod(ctx, username) (method string, err error)] *)
Definition LoadPreferred2FAMethod (p : SQLProvider) (username : string)
  : string * option error :=
  let '(method, err) :=
    db_GetContext p "" (sqlSelectPreferred2FAMethod p) [username] in
  match err with
  | None => (method, None)
  | Some e =>
      if errors_Is e sql_ErrNoRows then ("", None)
      else ("",
            Some (fmt_Errorf_w
                    ("error selecting preferred two factor method for user '"
                       ++ username ++ "': ") e))
  end.

End storage.

(** ** A concrete set of declarations, to run the builder on examples *)

(** Modelled from the spec: the declaration of [AuthzImplementation] is not
    among the sources.  The spec names the variants Legacy, ForwardAuth and
    AuthRequest and speaks of "any other value (including ForwardAuth and
    unset)", so this type has the three variants and an unset value apart
    from them. *)
Inductive SpecImplementation : Type :=
  | SpecImplUnset
  | SpecImplLegacy
  | SpecImplForwardAuth
  | SpecImplAuthRequest.

#[global] Instance SpecImplementation_eq_dec : EqDecision SpecImplementation.
Proof. solve_decision. Defined.

(** Modelled from the spec: the [String] method of [AuthzImplementation] is
    not among the sources; the spec gives the implementation names as
    [legacy|forward-auth|auth-request]. *)
Definition SpecImplementation_String (i : SpecImplementation) : string :=
  match i with
  | SpecImplUnset => ""
  | SpecImplLegacy => "legacy"
  | SpecImplForwardAuth => "forward-auth"
  | SpecImplAuthRequest => "auth-request"
  end.

Fixpoint parse_digits (s : string) (acc : Z) : option Z :=
  match s with
  | EmptyString => Some acc
  | String c s' =>
      let n := Z.of_N (Ascii.N_of_ascii c) in
      if ((48 <=? n) && (n <=? 57))%Z%bool
      then parse_digits s' (10 * acc + (n - 48))
      else None
  end.

(** Modelled from the spec: [utils.ParseDurationString] is not among the
    sources and the spec only says "explicit duration string".  This stand-in
    reads a non-empty string of decimal digits as a number of seconds and
    answers a zero duration with an error for anything else. *)
Definition spec_ParseDurationString (s : string) : time.Duration * option error :=
  match s with
  | EmptyString => (0, Some (errors_New "could not parse the duration string"))
  | _ =>
      match parse_digits s 0 with
      | Some n => (n * time.Second, None)
      | None => (0, Some (errors_New "could not parse the duration string"))
      end
  end.

(** Modelled from the spec: the strategy names are the spec's variant tags
    and the refresh policies its [disabled] and [always]. *)
Definition spec_declarations : Declarations :=
  {| AuthzImplementation := SpecImplementation;
     AuthzImplementation_zero := SpecImplUnset;
     AuthzImplLegacy := SpecImplLegacy;
     AuthzImplForwardAuth := SpecImplForwardAuth;
     AuthzImplAuthRequest := SpecImplAuthRequest;
     AuthzImplementation_String := SpecImplementation_String;
     AuthnStrategyCookieSession := "CookieSession";
     AuthnStrategyHeaderAuthorization := "HeaderAuthorization";
     AuthnStrategyHeaderProxyAuthorization := "HeaderProxyAuthorization";
     AuthnStrategyHeaderAuthRequestProxyAuthorization :=
       "HeaderAuthRequestProxyAuthorization";
     AuthnStrategyHeaderLegacy := "HeaderLegacy";
     ProfileRefreshDisabled := "disabled";
     ProfileRefreshAlways := "always";
     ParseDurationString := spec_ParseDurationString |}.


(** An endpoint configuration from an implementation name and strategy names. *)
Definition endpoint (implementation : string) (names : list string)
  : schema.ServerAuthzEndpointConfig :=
  {| schema.Implementation := implementation;
     schema.AuthnStrategies := map schema.Build_ServerAuthzEndpointAuthnStrategy names |}.

(** A static configuration from a refresh policy and a session domain. *)
Definition configuration (policy domain : string) : schema.Configuration :=
  {| schema.Configuration_AuthenticationBackend :=
       {| schema.AuthenticationBackend_RefreshInterval := policy |};
     schema.Configuration_Session := {| schema.Session_Domain := domain |} |}.

(** A fresh builder over the concrete declarations. *)
Definition fresh : @AuthzBuilder spec_declarations := NewAuthzBuilder.

(** A storage provider that knows the devices of [john] and fails for
    everyone else. *)
Definition example_ctx : AutheliaCtx string :=
  {| Providers_StorageProvider :=
       {| LoadWebauthnDevicesByUsername :=
            fun username : string =>
              if decide (username = "john") then (["yubikey"], None)
              else ([], Some (errors_New "database is locked")) |} |}.

(** A database in which [john] has a preferred method, [harry] has no row,
    and the query fails for everyone else. *)
Definition example_provider : storage.SQLProvider :=
  {| storage.db_GetContext :=
       fun dest _ args =>
         if decide (args = ["john"]) then ("totp", None)
         else if decide (args = ["harry"]) then (dest, Some sql_ErrNoRows)
         else (dest, Some (errors_New "connection refused"));
     storage.sqlSelectPreferred2FAMethod := "SELECT second_factor_method" |}.

(** ** The endpoint's strategy list, as the specification words it

    "Appends one strategy per named entry in the endpoint's strategy list,
    silently ignoring unrecognized strategy names": a name stands for at most
    one strategy, and the list is read once, in order.  [WithEndpointConfig]
    above is the source's loop; these two definitions are what it is compared
    with. *)
Section EndpointStrategies.
Context `{Declarations}.

Definition recognizedStrategyNames : list string :=
  [AuthnStrategyCookieSession;
   AuthnStrategyHeaderAuthorization;
   AuthnStrategyHeaderProxyAuthorization;
   AuthnStrategyHeaderAuthRequestProxyAuthorization;
   AuthnStrategyHeaderLegacy].

Definition strategyNamed (refreshInterval : time.Duration) (name : string)
  : option AuthnStrategy :=
  if decide (name = AuthnStrategyCookieSession)
  then Some (NewCookieSessionAuthnStrategy refreshInterval)
  else if decide (name = AuthnStrategyHeaderAuthorization)
  then Some NewHeaderAuthorizationAuthnStrategy
  else if decide (name = AuthnStrategyHeaderProxyAuthorization)
  then Some NewHeaderProxyAuthorizationAuthnStrategy
  else if decide (name = AuthnStrategyHeaderAuthRequestProxyAuthorization)
  then Some NewHeaderAuthRequestProxyAuthorizationAuthnStrategy
  else if decide (name = AuthnStrategyHeaderLegacy)
  then Some NewHeaderLegacyAuthnStrategy
  else None.

Definition endpointStrategies (refreshInterval : time.Duration)
    (c : schema.ServerAuthzEndpointConfig) : list AuthnStrategy :=
  omap (fun s => strategyNamed refreshInterval (schema.Name s))
       (schema.AuthnStrategies c).

End EndpointStrategies.

(** ** The builder's calls, seen as a whole

    Two definitions the properties of the builder's other functions are
    stated with: the implementation an endpoint name stands for, and a
    sequence of calls to the three strategy-adding functions. *)
Section BuilderCalls.
Context `{Declarations}.

(** The implementation that the first [switch] of [WithEndpointConfig]
    selects for a name. *)
Definition implementationNamed (name : string) : AuthzImplementation :=
  if decide (name = AuthzImplementation_String AuthzImplForwardAuth)
  then AuthzImplForwardAuth
  else if decide (name = AuthzImplementation_String AuthzImplAuthRequest)
  then AuthzImplAuthRequest
  else AuthzImplLegacy.

(** One call among [WithStrategyCookie(refreshInterval)],
    [WithStrategyAuthorization()] and [WithStrategyProxyAuthorization()]. *)
Inductive StrategyCall : Type :=
  | CallWithStrategyCookie (refreshInterval : time.Duration)
  | CallWithStrategyAuthorization
  | CallWithStrategyProxyAuthorization.

Definition applyStrategyCall (b : AuthzBuilder) (c : StrategyCall) : AuthzBuilder :=
  match c with
  | CallWithStrategyCookie refreshInterval => WithStrategyCookie b refreshInterval
  | CallWithStrategyAuthorization => WithStrategyAuthorization b
  | CallWithStrategyProxyAuthorization => WithStrategyProxyAuthorization b
  end.

(** The strategy a call adds. *)
Definition strategyOfCall (c : StrategyCall) : AuthnStrategy :=
  match c with
  | CallWithStrategyCookie refreshInterval =>
      NewCookieSessionAuthnStrategy refreshInterval
  | CallWithStrategyAuthorization => NewHeaderAuthorizationAuthnStrategy
  | CallWithStrategyProxyAuthorization => NewHeaderProxyAuthorizationAuthnStrategy
  end.

(** Whether an endpoint configuration names the CookieSession strategy. *)
Definition namesCookieSession (c : schema.ServerAuthzEndpointConfig) : Prop :=
  exists s, s ∈ schema.AuthnStrategies c /\
            schema.Name s = AuthnStrategyCookieSession.

End BuilderCalls.

(** ** package storage: the provider's calls to the database (sql_provider.go)

    The functions below talk to a database, a clock and, for the startup
    check, the schema functions of the provider.  Their embedding runs over a
    state [S] of all that, of which nothing is known but the operations of
    the class [Database]; each operation returns its answer and the next
    state.  A computation also returns the list of the operations it
    performed with their answers, in order, so that what a function does and
    what it never does can both be stated. *)
Module sql_provider.

(** [[]byte] *)
Definition bytes : Type := list Byte.byte.

(** [time.Time]: an instant, in nanoseconds since the zero [Time]. *)
Definition Time : Type := Z.

(** [time.Millisecond] *)
Definition Millisecond : time.Duration := 1000000 * time.Nanosecond.

(** [*sql.Tx]: a transaction, by its identity. *)
Definition Tx : Type := nat.

(** A value passed to a query. *)
Inductive Arg : Type :=
  | ArgString (s : string)
  | ArgInt (n : Z)
  | ArgBytes (b : bytes).

(** [model.IdentityVerification], the fields [FindIdentityVerification]
    reads: [Consumed *time.Time] and [ExpiresAt time.Time]. *)
Record IdentityVerification := {
  Consumed : option Time;
  ExpiresAt : Time
}.

(** [model.TOTPConfiguration], the fields read here. *)
Record TOTPConfiguration := {
  TOTP_ID : Z;
  TOTP_Username : string;
  Secret : bytes
}.

(** [model.WebauthnDevice], the fields read here. *)
Record WebauthnDevice := {
  Device_ID : Z;
  Device_Username : string;
  KID : bytes;
  PublicKey : bytes
}.

(** [model.DuoDevice] *)
Record DuoDevice := {
  Duo_Username : string;
  Duo_Device : string;
  Duo_Method : string
}.

(** [context.Context], as far as values go: the background context and
    [context.WithValue(parent, key, val)].  A value is a transaction or
    anything else. *)
Definition CtxKey : Type := string.

Inductive ctxValue : Type :=
  | ValueTx (tx : Tx)
  | ValueOther (v : string).

Inductive Context : Type :=
  | Background
  | WithValue (parent : Context) (key : CtxKey) (val : ctxValue).

(** [ctx.Value(key)]: the value of the nearest [WithValue] with that key,
    nil ([None]) when there is none. *)
Fixpoint Context_Value (ctx : Context) (key : CtxKey) : option ctxValue :=
  match ctx with
  | Background => None
  | WithValue parent k v =>
      if decide (k = key) then Some v else Context_Value parent key
  end.

(** Declarations of this repository that the provider uses and that are
    made in other files: [model.UserInfo] (with its zero value),
    [authentication.PossibleMethods], the sentinel errors of package storage,
    [SchemaLatest], the context key of the transaction, the provider's
    [decrypt], a function of the ciphertext for the provider's key, and the
    type [OAuth2SessionType] with its five constants and its text under the
    verb [%s]; [Duration_String] is the text of a [time.Duration].  A
    sentinel is compared by identity in Go; here an error is its structure, so
    a sentinel stands for every error built like it. *)
Class StorageDeclarations := {
  UserInfo : Type;
  UserInfo_zero : UserInfo;
  PossibleMethods : list string;
  ErrNoTOTPConfiguration : error;
  ErrNoWebauthnDevice : error;
  ErrNoDuoDevice : error;
  ErrSchemaAlreadyUpToDate : error;
  ErrSchemaEncryptionVersionUnsupported : error;
  SchemaLatest : Z;
  ctxKeyTransaction : CtxKey;
  decrypt : bytes -> bytes * option error;
  Duration_String : time.Duration -> string;
  OAuth2SessionType : Type;
  OAuth2SessionType_eq_dec :: EqDecision OAuth2SessionType;
  OAuth2SessionTypeAuthorizeCode : OAuth2SessionType;
  OAuth2SessionTypeAccessToken : OAuth2SessionType;
  OAuth2SessionTypeRefreshToken : OAuth2SessionType;
  OAuth2SessionTypePKCEChallenge : OAuth2SessionType;
  OAuth2SessionTypeOpenIDConnect : OAuth2SessionType;
  OAuth2SessionType_format : OAuth2SessionType -> string
}.

Section Provider.
Context `{StorageDeclarations}.

(** What a query scans its rows into. *)
Inductive Dest : Type :=
  | DestUserInfo
  | DestIdentityVerification
  | DestTOTPConfiguration
  | DestWebauthnDevices
  | DestDuoDevice.

Definition dest_type (d : Dest) : Type :=
  match d with
  | DestUserInfo => UserInfo
  | DestIdentityVerification => IdentityVerification
  | DestTOTPConfiguration => TOTPConfiguration
  | DestWebauthnDevices => list WebauthnDevice
  | DestDuoDevice => DuoDevice
  end.

(** The operations on the outside world.  A query that scans into a
    destination is given what the destination holds and answers what it holds
    afterwards, with the error.  [db_Begin] answers a transaction or an
    error.  [SchemaEncryptionCheckKey] and [SchemaMigrate] are methods of the
    provider declared in other files. *)
Class Database (S : Type) := {
  db_Ping : S -> option error * S;
  db_Begin : S -> (Tx + error) * S;
  db_ExecContext : string -> list Arg -> S -> option error * S;
  db_GetContext :
    forall d : Dest, string -> list Arg -> dest_type d -> S ->
                     (dest_type d * option error) * S;
  db_SelectContext :
    forall d : Dest, string -> list Arg -> dest_type d -> S ->
                     (dest_type d * option error) * S;
  db_QueryRowxContext_StructScan :
    forall d : Dest, string -> list Arg -> dest_type d -> S ->
                     (dest_type d * option error) * S;
  tx_Commit : Tx -> S -> option error * S;
  tx_Rollback : Tx -> S -> option error * S;
  time_Now : S -> Time * S;
  time_Since : Time -> S -> time.Duration * S;
  time_Sleep : time.Duration -> S -> S;
  SchemaEncryptionCheckKey : bool -> S -> option error * S;
  SchemaMigrate : bool -> Z -> S -> option error * S
}.

(** An operation performed, with its arguments and its answer. *)
Inductive Event : Type :=
  | EvPing (err : option error)
  | EvSleep (d : time.Duration)
  | EvBegin (r : Tx + error)
  | EvExecContext (query : string) (args : list Arg) (err : option error)
  | EvGetContext (query : string) (args : list Arg) (err : option error)
  | EvSelectContext (query : string) (args : list Arg) (err : option error)
  | EvQueryRowxContext (query : string) (args : list Arg) (err : option error)
  | EvCommit (tx : Tx) (err : option error)
  | EvRollback (tx : Tx) (err : option error)
  | EvNow (t : Time)
  | EvSince (t : Time) (d : time.Duration)
  | EvSchemaEncryptionCheckKey (verbose : bool) (err : option error)
  | EvSchemaMigrate (up : bool) (version : Z) (err : option error).

Context {S : Type} `{Database S}.

(** A computation: from a state to a result, the events and the next state. *)
Definition M (A : Type) : Type := S -> (A * list Event) * S.

Definition ret {A : Type} (a : A) : M A := fun s => ((a, []), s).

Definition bind {A B : Type} (m : M A) (k : A -> M B) : M B :=
  fun s =>
    let '((a, evs1), s1) := m s in
    let '((b, evs2), s2) := k a s1 in
    ((b, (evs1 ++ evs2)%list), s2).

(** The result, the events and the final state of a computation. *)
Definition result {A : Type} (r : (A * list Event) * S) : A := fst (fst r).
Definition events {A : Type} (r : (A * list Event) * S) : list Event := snd (fst r).
Definition final {A : Type} (r : (A * list Event) * S) : S := snd r.

(** One operation: run it and record it with its answer. *)
Definition perform {A : Type} (op : S -> A * S) (ev : A -> Event) : M A :=
  fun s => let '(a, s1) := op s in ((a, [ev a]), s1).

Definition Ping : M (option error) := perform db_Ping EvPing.

Definition Sleep (d : time.Duration) : M unit :=
  fun s => ((tt, [EvSleep d]), time_Sleep d s).

Definition Begin : M (Tx + error) := perform db_Begin EvBegin.

Definition ExecContext (query : string) (args : list Arg) : M (option error) :=
  perform (db_ExecContext query args) (EvExecContext query args).

Definition GetContext (d : Dest) (dest : dest_type d) (query : string)
    (args : list Arg) : M (dest_type d * option error) :=
  perform (db_GetContext d query args dest) (fun r => EvGetContext query args (snd r)).

Definition SelectContext (d : Dest) (dest : dest_type d) (query : string)
    (args : list Arg) : M (dest_type d * option error) :=
  perform (db_SelectContext d query args dest)
          (fun r => EvSelectContext query args (snd r)).

Definition QueryRowxContext_StructScan (d : Dest) (dest : dest_type d)
    (query : string) (args : list Arg) : M (dest_type d * option error) :=
  perform (db_QueryRowxContext_StructScan d query args dest)
          (fun r => EvQueryRowxContext query args (snd r)).

Definition Commit_tx (tx : Tx) : M (option error) := perform (tx_Commit tx) (EvCommit tx).

Definition Rollback_tx (tx : Tx) : M (option error) :=
  perform (tx_Rollback tx) (EvRollback tx).

Definition Now : M Time := perform time_Now EvNow.

Definition Since (t : Time) : M time.Duration := perform (time_Since t) (EvSince t).

Definition CheckKey (verbose : bool) : M (option error) :=
  perform (SchemaEncryptionCheckKey verbose) (EvSchemaEncryptionCheckKey verbose).

Definition Migrate (up : bool) (version : Z) : M (option error) :=
  perform (SchemaMigrate up version) (EvSchemaMigrate up version).

(** [*SQLProvider], the fields the functions below read. *)
Record SQLProvider := {
  errOpen : option error;
  sqlUpsertPreferred2FAMethod : string;
  sqlSelectUserInfo : string;
  sqlSelectIdentityVerification : string;
  sqlSelectTOTPConfig : string;
  sqlSelectWebauthnDevicesByUsername : string;
  sqlSelectDuoDevice : string;
  sqlRevokeOAuth2AuthorizeCodeSession : string;
  sqlRevokeOAuth2AuthorizeCodeSessionByRequestID : string;
  sqlRevokeOAuth2AccessTokenSession : string;
  sqlRevokeOAuth2AccessTokenSessionByRequestID : string;
  sqlRevokeOAuth2RefreshTokenSession : string;
  sqlRevokeOAuth2RefreshTokenSessionByRequestID : string;
  sqlRevokeOAuth2PKCERequestSession : string;
  sqlRevokeOAuth2PKCERequestSessionByRequestID : string;
  sqlRevokeOAuth2OpenIDConnectSession : string;
  sqlRevokeOAuth2OpenIDConnectSessionByRequestID : string
}.

(** The loop of [StartupCheck]: [for i := 0; i < 19; i++], here with the
    rounds left and the value of [err] so far. *)
Fixpoint pingLoop (rounds : nat) (err : option error) : M (option error) :=
  match rounds with
  | O => ret err
  | Datatypes.S rounds' =>
      bind Ping (fun err =>
        match err with
        | None => ret None
        | Some _ => bind (Sleep (Millisecond * 500)) (fun _ => pingLoop rounds' err)
        end)
  end.

(** The end of [StartupCheck]: [SchemaMigrate] and the [switch] on its
    error. *)
Definition migrateToLatest : M (option error) :=
  bind (Migrate true SchemaLatest) (fun err =>
    match err with
    | None => ret None
    | Some e =>
        if decide (e = ErrSchemaAlreadyUpToDate) then ret None
        else ret (Some (storage.fmt_Errorf_w "error during schema migrate: " e))
    end).

(** [StartupCheck() (err error)] *)
Definition StartupCheck (p : SQLProvider) : M (option error) :=
  match errOpen p with
  | Some e => ret (Some (storage.fmt_Errorf_w "error opening database: " e))
  | None =>
      bind (pingLoop 19 None) (fun err =>
        match err with
        | Some e => ret (Some (storage.fmt_Errorf_w "error pinging database: " e))
        | None =>
            bind (CheckKey false) (fun err =>
              match err with
              | Some e =>
                  if negb (errors_Is e ErrSchemaEncryptionVersionUnsupported)
                  then ret (Some e)
                  else migrateToLatest
              | None => migrateToLatest
              end)
        end)
  end.

(** [BeginTX(ctx) (c context.Context, err error)]; the context returned with
    an error is nil. *)
Definition BeginTX (p : SQLProvider) (ctx : Context) : M (option Context * option error) :=
  bind Begin (fun r =>
    match r with
    | inr err => ret (None, Some err)
    | inl tx => ret (Some (WithValue ctx ctxKeyTransaction (ValueTx tx)), None)
    end).

(** [Commit(ctx) (err error)]: the type assertion [.( *sql.Tx)] holds for a
    transaction only. *)
Definition Commit (p : SQLProvider) (ctx : Context) : M (option error) :=
  match Context_Value ctx ctxKeyTransaction with
  | Some (ValueTx tx) => Commit_tx tx
  | _ => ret (Some (errors_New "could not retrieve tx"))
  end.

(** [Rollback(ctx) (err error)] *)
Definition Rollback (p : SQLProvider) (ctx : Context) : M (option error) :=
  match Context_Value ctx ctxKeyTransaction with
  | Some (ValueTx tx) => Rollback_tx tx
  | _ => ret (Some (errors_New "could not retrieve tx"))
  end.

(** [LoadUserInfo(ctx, username) (info model.UserInfo, err error)].  The
    result [None] is the run-time panic of [authentication.PossibleMethods[0]]
    on an empty slice; the index is evaluated before the statement is run. *)
Definition LoadUserInfo (p : SQLProvider) (username : string)
  : M (option (UserInfo * option error)) :=
  let args := [ArgString username; ArgString username;
               ArgString username; ArgString username] in
  bind (GetContext DestUserInfo UserInfo_zero (sqlSelectUserInfo p) args)
    (fun '(info, err) =>
       match err with
       | None => ret (Some (info, None))
       | Some e =>
           if errors_Is e sql_ErrNoRows then
             match PossibleMethods with
             | [] => ret None
             | method :: _ =>
                 bind (ExecContext (sqlUpsertPreferred2FAMethod p)
                         [ArgString username; ArgString method])
                   (fun err =>
                      match err with
                      | Some e =>
                          ret (Some (UserInfo_zero,
                                     Some (storage.fmt_Errorf_w
                                             ("error upserting preferred two factor method while selecting user info for user '"
                                                ++ username ++ "': ") e)))
                      | None =>
                          bind (GetContext DestUserInfo info (sqlSelectUserInfo p) args)
                            (fun '(info, err) =>
                               match err with
                               | Some e =>
                                   ret (Some (UserInfo_zero,
                                              Some (storage.fmt_Errorf_w
                                                      ("error selecting user info for user '"
                                                         ++ username ++ "': ") e)))
                               | None => ret (Some (info, None))
                               end)
                      end)
             end
           else
             ret (Some (UserInfo_zero,
                        Some (storage.fmt_Errorf_w
                                ("error selecting user info for user '"
                                   ++ username ++ "': ") e)))
       end).

(** [FindIdentityVerification(ctx, jti) (found bool, err error)].
    [fmt.Errorf] without [%w] gives an error that wraps nothing. *)
Definition FindIdentityVerification (p : SQLProvider) (jti : string)
  : M (bool * option error) :=
  bind (GetContext DestIdentityVerification
          {| Consumed := None; ExpiresAt := 0 |}
          (sqlSelectIdentityVerification p) [ArgString jti])
    (fun '(verification, err) =>
       match err with
       | Some e =>
           if errors_Is e sql_ErrNoRows then ret (false, None)
           else ret (false,
                     Some (storage.fmt_Errorf_w
                             "error selecting identity verification exists: " e))
       | None =>
           match Consumed verification with
           | Some _ =>
               ret (false, Some (errors_New "the token has already been consumed"))
           | None =>
               bind Now (fun now =>
                 if (ExpiresAt verification <? now)%Z then
                   bind (Since (ExpiresAt verification)) (fun ago =>
                     ret (false,
                          Some (errors_New
                                  ("the token expired " ++ Duration_String ago
                                     ++ " ago"))))
                 else ret (true, None))
           end
       end).

(** [LoadTOTPConfiguration(ctx, username) (config *model.TOTPConfiguration,
    err error)] *)
Definition LoadTOTPConfiguration (p : SQLProvider) (username : string)
  : M (option TOTPConfiguration * option error) :=
  bind (QueryRowxContext_StructScan DestTOTPConfiguration
          {| TOTP_ID := 0; TOTP_Username := ""; Secret := [] |}
          (sqlSelectTOTPConfig p) [ArgString username])
    (fun '(config, err) =>
       match err with
       | Some e =>
           if errors_Is e sql_ErrNoRows then ret (None, Some ErrNoTOTPConfiguration)
           else ret (None,
                     Some (storage.fmt_Errorf_w
                             ("error selecting TOTP configuration for user '"
                                ++ username ++ "': ") e))
       | None =>
           match decrypt (Secret config) with
           | (_, Some e) =>
               ret (None,
                    Some (storage.fmt_Errorf_w
                            ("error decrypting the TOTP secret for user '"
                               ++ username ++ "': ") e))
           | (secret, None) =>
               ret (Some {| TOTP_ID := TOTP_ID config;
                            TOTP_Username := TOTP_Username config;
                            Secret := secret |},
                    None)
           end
       end).

(** The loop of [LoadWebauthnDevicesByUsername] over the devices selected:
    each public key is replaced by what [decrypt] makes of it, and the first
    failure ends the function with a nil slice and the error. *)
Fixpoint decryptPublicKeys (username : string) (devices : list WebauthnDevice)
  : list WebauthnDevice * option error :=
  match devices with
  | [] => ([], None)
  | device :: rest =>
      match decrypt (PublicKey device) with
      | (_, Some e) =>
          ([], Some (storage.fmt_Errorf_w
                       ("error decrypting Webauthn public key for user '"
                          ++ username ++ "': ") e))
      | (publicKey, None) =>
          match decryptPublicKeys username rest with
          | (_, Some e) => ([], Some e)
          | (rest', None) =>
              ({| Device_ID := Device_ID device;
                  Device_Username := Device_Username device;
                  KID := KID device;
                  PublicKey := publicKey |} :: rest', None)
          end
      end
  end.

(** [LoadWebauthnDevicesByUsername(ctx, username) (devices
    []model.WebauthnDevice, err error)] *)
Definition LoadWebauthnDevicesByUsername (p : SQLProvider) (username : string)
  : M (list WebauthnDevice * option error) :=
  bind (SelectContext DestWebauthnDevices []
          (sqlSelectWebauthnDevicesByUsername p) [ArgString username])
    (fun '(devices, err) =>
       match err with
       | Some e =>
           if errors_Is e sql_ErrNoRows then ret ([], Some ErrNoWebauthnDevice)
           else ret ([],
                     Some (storage.fmt_Errorf_w
                             ("error selecting Webauthn devices for user '"
                                ++ username ++ "': ") e))
       | None => ret (decryptPublicKeys username devices)
       end).

(** [LoadPreferredDuoDevice(ctx, username) (device *model.DuoDevice, err
    error)]; the error is compared with [==], not with [errors.Is]. *)
Definition LoadPreferredDuoDevice (p : SQLProvider) (username : string)
  : M (option DuoDevice * option error) :=
  bind (QueryRowxContext_StructScan DestDuoDevice
          {| Duo_Username := ""; Duo_Device := ""; Duo_Method := "" |}
          (sqlSelectDuoDevice p) [ArgString username])
    (fun '(device, err) =>
       match err with
       | Some e =>
           if decide (e = sql_ErrNoRows) then ret (None, Some ErrNoDuoDevice)
           else ret (None,
                     Some (storage.fmt_Errorf_w
                             ("error selecting preferred duo device for user '"
                                ++ username ++ "': ") e))
       | None => ret (Some device, None)
       end).

(** The [switch sessionType] of [RevokeOAuth2Session]: the query for a
    session type, none in the [default] case. *)
Definition revokeQuery (p : SQLProvider) (sessionType : OAuth2SessionType)
  : option string :=
  if decide (sessionType = OAuth2SessionTypeAuthorizeCode)
  then Some (sqlRevokeOAuth2AuthorizeCodeSession p)
  else if decide (sessionType = OAuth2SessionTypeAccessToken)
  then Some (sqlRevokeOAuth2AccessTokenSession p)
  else if decide (sessionType = OAuth2SessionTypeRefreshToken)
  then Some (sqlRevokeOAuth2RefreshTokenSession p)
  else if decide (sessionType = OAuth2SessionTypePKCEChallenge)
  then Some (sqlRevokeOAuth2PKCERequestSession p)
  else if decide (sessionType = OAuth2SessionTypeOpenIDConnect)
  then Some (sqlRevokeOAuth2OpenIDConnectSession p)
  else None.

(** [RevokeOAuth2Session(ctx, sessionType, signature) (err error)] *)
Definition RevokeOAuth2Session (p : SQLProvider) (sessionType : OAuth2SessionType)
    (signature : string) : M (option error) :=
  match revokeQuery p sessionType with
  | None =>
      ret (Some (errors_New
                   ("error revoking oauth2 session with signature '" ++ signature
                      ++ "': unknown oauth2 session type '"
                      ++ OAuth2SessionType_format sessionType ++ "'")))
  | Some query =>
      bind (ExecContext query [ArgString signature]) (fun err =>
        match err with
        | Some e =>
            ret (Some (storage.fmt_Errorf_w
                         ("error revoking oauth2 "
                            ++ OAuth2SessionType_format sessionType
                            ++ " session with signature '" ++ signature ++ "': ") e))
        | None => ret None
        end)
  end.

(** The [switch sessionType] of [RevokeOAuth2SessionByRequestID]. *)
Definition revokeByRequestIDQuery (p : SQLProvider) (sessionType : OAuth2SessionType)
  : option string :=
  if decide (sessionType = OAuth2SessionTypeAuthorizeCode)
  then Some (sqlRevokeOAuth2AuthorizeCodeSessionByRequestID p)
  else if decide (sessionType = OAuth2SessionTypeAccessToken)
  then Some (sqlRevokeOAuth2AccessTokenSessionByRequestID p)
  else if decide (sessionType = OAuth2SessionTypeRefreshToken)
  then Some (sqlRevokeOAuth2RefreshTokenSessionByRequestID p)
  else if decide (sessionType = OAuth2SessionTypePKCEChallenge)
  then Some (sqlRevokeOAuth2PKCERequestSessionByRequestID p)
  else if decide (sessionType = OAuth2SessionTypeOpenIDConnect)
  then Some (sqlRevokeOAuth2OpenIDConnectSessionByRequestID p)
  else None.

(** [RevokeOAuth2SessionByRequestID(ctx, sessionType, requestID) (err error)] *)
Definition RevokeOAuth2SessionByRequestID (p : SQLProvider)
    (sessionType : OAuth2SessionType) (requestID : string) : M (option error) :=
  match revokeByRequestIDQuery p sessionType with
  | None =>
      ret (Some (errors_New
                   ("error revoking oauth2 session with request id '" ++ requestID
                      ++ "': unknown oauth2 session type '"
                      ++ OAuth2SessionType_format sessionType ++ "'")))
  | Some query =>
      bind (ExecContext query [ArgString requestID]) (fun err =>
        match err with
        | Some e =>
            ret (Some (storage.fmt_Errorf_w
                         ("error revoking oauth2 "
                            ++ OAuth2SessionType_format sessionType
                            ++ " session with request id '" ++ requestID ++ "': ") e))
        | None => ret None
        end)
  end.

(** The session types the provider knows. *)
Definition knownOAuth2SessionTypes : list OAuth2SessionType :=
  [OAuth2SessionTypeAuthorizeCode; OAuth2SessionTypeAccessToken;
   OAuth2SessionTypeRefreshToken; OAuth2SessionTypePKCEChallenge;
   OAuth2SessionTypeOpenIDConnect].

(** The events of a run of failed pings: each failure is followed by a
    sleep of half a second. *)
Definition failedPings (failures : list error) : list Event :=
  flat_map (fun e => [EvPing (Some e); EvSleep (Millisecond * 500)]) failures.

(** The value of [err] after the loop of [StartupCheck] ran out of rounds. *)
Definition lastError (failures : list error) (err : option error) : option error :=
  match last failures with
  | Some e => Some e
  | None => err
  end.

(** The answers of [SchemaEncryptionCheckKey] that let [StartupCheck] go on:
    no error, or an error that is [ErrSchemaEncryptionVersionUnsupported]. *)
Definition keyCheckPasses (r : option error) : Prop :=
  r = None \/
  exists e, r = Some e /\ errors_Is e ErrSchemaEncryptionVersionUnsupported = true.

(** The answers of [SchemaMigrate] that [StartupCheck] takes for a success. *)
Definition migrationPasses (r : option error) : Prop :=
  r = None \/ r = Some ErrSchemaAlreadyUpToDate.

(** A device after the loop of [LoadWebauthnDevicesByUsername] went over it. *)
Definition decrypted (device : WebauthnDevice) : WebauthnDevice :=
  {| Device_ID := Device_ID device;
     Device_Username := Device_Username device;
     KID := KID device;
     PublicKey := fst (decrypt (PublicKey device)) |}.

End Provider.

End sql_provider.

(** The storage provider a handler reaches through
    [ctx.Providers.StorageProvider] when it is a [*SQLProvider] and the
    outside world is in the state [s]. *)
Definition sqlStorageProvider `{sql_provider.StorageDeclarations} {S : Type}
    `{!sql_provider.Database S} (p : sql_provider.SQLProvider) (s : S)
  : StorageProvider sql_provider.WebauthnDevice :=
  {| LoadWebauthnDevicesByUsername :=
       fun username =>
         sql_provider.result (sql_provider.LoadWebauthnDevicesByUsername p username s) |}.

(** ** An example world, to run the provider on

    Nothing here comes from the repository: these are inputs for the
    examples at the end. *)
Module example.
Import sql_provider.

(** A toy cipher: a ciphertext is the plaintext after the byte 01. *)
Definition toy_decrypt (b : bytes) : bytes * option error :=
  match b with
  | Byte.x01 :: plain => (plain, None)
  | _ => ([], Some (errors_New "cipher: message authentication failed"))
  end.

Definition declarations : StorageDeclarations :=
  {| UserInfo := string;
     UserInfo_zero := "";
     PossibleMethods := ["totp"; "webauthn"; "mobile_push"];
     ErrNoTOTPConfiguration := errors_New "no TOTP configuration for user";
     ErrNoWebauthnDevice := errors_New "no webauthn device found";
     ErrNoDuoDevice := errors_New "no Duo device and method saved";
     ErrSchemaAlreadyUpToDate := errors_New "schema already up to date";
     ErrSchemaEncryptionVersionUnsupported :=
       errors_New "schema version doesn't support encryption";
     SchemaLatest := 2147483640;
     ctxKeyTransaction := "tx";
     decrypt := toy_decrypt;
     Duration_String := fun d => if (d <? 1000000000)%Z then "0s" else "1s";
     OAuth2SessionType := string;
     OAuth2SessionTypeAuthorizeCode := "authorization code";
     OAuth2SessionTypeAccessToken := "access token";
     OAuth2SessionTypeRefreshToken := "refresh token";
     OAuth2SessionTypePKCEChallenge := "pkce challenge";
     OAuth2SessionTypeOpenIDConnect := "openid connect";
     OAuth2SessionType_format := fun t => t |}.

(** The state of the example world: how many pings will still be refused,
    the clock, and the rows of the user preferences. *)
Record World := {
  refused : nat;
  clock : Time;
  preferences : list (string * string)
}.

Definition preference (w : World) (username : string) : option string :=
  match list_find (fun row => fst row = username) (preferences w) with
  | Some (_, row) => Some (snd row)
  | None => None
  end.

Definition example_Ping (w : World) : option error * World :=
  match refused w with
  | O => (None, w)
  | Datatypes.S n =>
      (Some (errors_New "connection refused"),
       {| refused := n; clock := clock w; preferences := preferences w |})
  end.

Definition example_Exec (query : string) (args : list Arg) (w : World)
  : option error * World :=
  match args with
  | [ArgString username; ArgString method] =>
      (None, {| refused := refused w; clock := clock w;
                preferences := (username, method) :: preferences w |})
  | _ => (None, w)
  end.

Definition example_Get (d : Dest) (query : string) (args : list Arg)
  : @dest_type declarations d -> World ->
    (@dest_type declarations d * option error) * World :=
  match d with
  | DestUserInfo => fun dest w =>
      match args with
      | ArgString username :: _ =>
          match preference w username with
          | Some method => ((method, None), w)
          | None => ((dest, Some sql_ErrNoRows), w)
          end
      | _ => ((dest, Some sql_ErrNoRows), w)
      end
  | DestIdentityVerification => fun dest w =>
      match args with
      | [ArgString jti] =>
          if decide (jti = "fresh") then
            (({| Consumed := None; ExpiresAt := 2000 |}, None), w)
          else if decide (jti = "used") then
            (({| Consumed := Some 500; ExpiresAt := 100 |}, None), w)
          else ((dest, Some sql_ErrNoRows), w)
      | _ => ((dest, Some sql_ErrNoRows), w)
      end
  | _ => fun dest w => ((dest, Some sql_ErrNoRows), w)
  end.

Definition example_Select (d : Dest) (query : string) (args : list Arg)
  : @dest_type declarations d -> World ->
    (@dest_type declarations d * option error) * World :=
  match d with
  | DestWebauthnDevices => fun dest w =>
      match args with
      | [ArgString username] =>
          if decide (username = "john") then
            (([ {| Device_ID := 1; Device_Username := "john";
                   KID := [Byte.x0a]; PublicKey := [Byte.x01; Byte.x2a] |};
                {| Device_ID := 2; Device_Username := "john";
                   KID := [Byte.x0b]; PublicKey := [Byte.x01; Byte.x2b] |} ],
              None), w)
          else if decide (username = "harry") then
            (([ {| Device_ID := 3; Device_Username := "harry";
                   KID := [Byte.x0c]; PublicKey := [Byte.x01; Byte.x2c] |};
                {| Device_ID := 4; Device_Username := "harry";
                   KID := [Byte.x0d]; PublicKey := [Byte.xff] |} ],
              None), w)
          else if decide (username = "anna") then
            (([], None), w)
          else ((dest, Some sql_ErrNoRows), w)
      | _ => ((dest, Some sql_ErrNoRows), w)
      end
  | _ => fun dest w => ((dest, Some sql_ErrNoRows), w)
  end.

Definition example_QueryRowx (d : Dest) (query : string) (args : list Arg)
  : @dest_type declarations d -> World ->
    (@dest_type declarations d * option error) * World :=
  match d with
  | DestTOTPConfiguration => fun dest w =>
      match args with
      | [ArgString username] =>
          if decide (username = "john") then
            (({| TOTP_ID := 7; TOTP_Username := "john";
                 Secret := [Byte.x01; Byte.x53] |}, None), w)
          else ((dest, Some (wrapError "scan" sql_ErrNoRows)), w)
      | _ => ((dest, Some sql_ErrNoRows), w)
      end
  | DestDuoDevice => fun dest w =>
      match args with
      | [ArgString username] =>
          if decide (username = "john") then
            (({| Duo_Username := "john"; Duo_Device := "phone";
                 Duo_Method := "push" |}, None), w)
          else if decide (username = "harry") then
            ((dest, Some sql_ErrNoRows), w)
          else ((dest, Some (wrapError "scan" sql_ErrNoRows)), w)
      | _ => ((dest, Some sql_ErrNoRows), w)
      end
  | _ => fun dest w => ((dest, Some sql_ErrNoRows), w)
  end.

Definition database : @Database declarations World :=
  {| db_Ping := example_Ping;
     db_Begin := fun w => (inl 1%nat, w);
     db_ExecContext := example_Exec;
     db_GetContext := example_Get;
     db_SelectContext := example_Select;
     db_QueryRowxContext_StructScan := example_QueryRowx;
     tx_Commit := fun tx w => (None, w);
     tx_Rollback := fun tx w => (None, w);
     time_Now := fun w => (clock w, w);
     time_Since := fun t w => (clock w - t, w);
     time_Sleep := fun d w =>
       {| refused := refused w; clock := clock w + d;
          preferences := preferences w |};
     SchemaEncryptionCheckKey := fun _ w => (None, w);
     SchemaMigrate := fun _ _ w =>
       (Some (errors_New "schema already up to date"), w) |}.

Definition provider : SQLProvider :=
  {| errOpen := None;
     sqlUpsertPreferred2FAMethod := "upsert preferred method";
     sqlSelectUserInfo := "select user info";
     sqlSelectIdentityVerification := "select identity verification";
     sqlSelectTOTPConfig := "select TOTP configuration";
     sqlSelectWebauthnDevicesByUsername := "select webauthn devices";
     sqlSelectDuoDevice := "select duo device";
     sqlRevokeOAuth2AuthorizeCodeSession := "revoke authorize code";
     sqlRevokeOAuth2AuthorizeCodeSessionByRequestID := "revoke authorize code by id";
     sqlRevokeOAuth2AccessTokenSession := "revoke access token";
     sqlRevokeOAuth2AccessTokenSessionByRequestID := "revoke access token by id";
     sqlRevokeOAuth2RefreshTokenSession := "revoke refresh token";
     sqlRevokeOAuth2RefreshTokenSessionByRequestID := "revoke refresh token by id";
     sqlRevokeOAuth2PKCERequestSession := "revoke pkce request";
     sqlRevokeOAuth2PKCERequestSessionByRequestID := "revoke pkce request by id";
     sqlRevokeOAuth2OpenIDConnectSession := "revoke openid connect";
     sqlRevokeOAuth2OpenIDConnectSessionByRequestID := "revoke openid connect by id" |}.

(** A world whose database refuses the first two pings, at instant 2000,
    and in which [john] prefers [totp]. *)
Definition world : World :=
  {| refused := 2; clock := 2000; preferences := [("john", "totp")] |}.

End example.

(** * Properties *)

(** ** The builder *)
Section BuilderProperties.
Context `{Declarations}.

Lemma builder_eta (b : AuthzBuilder) :
  {| config := config b; impl := impl b; strategies := strategies b |} = b.
Proof. destruct b; reflexivity. Qed.

(** One round of the loop appends what [strategyNamed] says, if anything. *)
Lemma withStrategyNamed_spec (b : AuthzBuilder) s :
  withStrategyNamed b s =
  set_strategies b
    (strategies b ++
       option_list (strategyNamed (RefreshInterval (config b)) (schema.Name s))).
Proof.
  unfold withStrategyNamed, strategyNamed.
  repeat case_decide; simpl; try reflexivity.
  unfold set_strategies. rewrite app_nil_r. symmetry. apply builder_eta.
Qed.

Lemma fold_withStrategyNamed (l : list schema.ServerAuthzEndpointAuthnStrategy) :
  forall b : AuthzBuilder,
    fold_left withStrategyNamed l b =
    set_strategies b
      (strategies b ++
         omap (fun s => strategyNamed (RefreshInterval (config b)) (schema.Name s)) l).
Proof.
  induction l as [|s l IH]; intros b; simpl.
  - unfold set_strategies. rewrite app_nil_r. symmetry. apply builder_eta.
  - rewrite IH, withStrategyNamed_spec. unfold set_strategies; simpl.
    f_equal. rewrite <- app_assoc. f_equal.
    destruct (strategyNamed _ _); reflexivity.
Qed.

Lemma withImplementationNamed_config (b : AuthzBuilder) name :
  config (withImplementationNamed b name) = config b.
Proof. unfold withImplementationNamed. repeat case_decide; reflexivity. Qed.

Lemma WithEndpointConfig_config (b : AuthzBuilder) c :
  config (WithEndpointConfig b c) = config b.
Proof.
  unfold WithEndpointConfig. rewrite fold_withStrategyNamed. simpl.
  apply withImplementationNamed_config.
Qed.

Lemma WithEndpointConfig_strategies (b : AuthzBuilder) c :
  strategies (WithEndpointConfig b c) =
  endpointStrategies (RefreshInterval (config b)) c.
Proof.
  unfold WithEndpointConfig, endpointStrategies.
  rewrite fold_withStrategyNamed. simpl.
  rewrite withImplementationNamed_config. reflexivity.
Qed.

Lemma WithEndpointConfig_impl_eq (b : AuthzBuilder) c :
  impl (WithEndpointConfig b c) =
  impl (withImplementationNamed b (schema.Implementation c)).
Proof. unfold WithEndpointConfig. rewrite fold_withStrategyNamed. reflexivity. Qed.

Lemma Build_strategies_nil (b : AuthzBuilder) :
  strategies b = [] -> authz_strategies (Build b) = defaultStrategies b.
Proof.
  intros Hnil. unfold Build. simpl. rewrite Hnil. simpl.
  repeat case_decide; reflexivity.
Qed.


(** C2, as amended.  An endpoint configuration whose implementation name is
    neither the ForwardAuth name nor the AuthRequest name and whose strategy
    list is empty makes the builder a Legacy one, so [Build] installs
    HeaderLegacy then CookieSession, the latter with the RefreshInterval of
    the builder's config. *)
Theorem WithEndpointConfig_unrecognized_Build (b : AuthzBuilder)
    (c : schema.ServerAuthzEndpointConfig) :
  schema.Implementation c <> AuthzImplementation_String AuthzImplForwardAuth ->
  schema.Implementation c <> AuthzImplementation_String AuthzImplAuthRequest ->
  schema.AuthnStrategies c = [] ->
  authz_strategies (Build (WithEndpointConfig b c)) =
    [NewHeaderLegacyAuthnStrategy;
     NewCookieSessionAuthnStrategy (RefreshInterval (config b))].
Proof.
  intros HF HA Hnil.
  assert (Hs : strategies (WithEndpointConfig b c) = []).
  { rewrite WithEndpointConfig_strategies. unfold endpointStrategies.
    rewrite Hnil. reflexivity. }
  assert (Hi : impl (WithEndpointConfig b c) = AuthzImplLegacy).
  { rewrite WithEndpointConfig_impl_eq. unfold withImplementationNamed.
    repeat case_decide; try contradiction. reflexivity. }
  rewrite (Build_strategies_nil _ Hs). unfold defaultStrategies.
  rewrite Hi, WithEndpointConfig_config.
  case_decide; [reflexivity | contradiction].
Qed.

(** C3.  [WithEndpointConfig] sets the implementation from the name in the
    configuration: ForwardAuth for the ForwardAuth name, AuthRequest for the
    AuthRequest name, and Legacy for every other name. *)
Theorem WithEndpointConfig_impl (b : AuthzBuilder)
    (c : schema.ServerAuthzEndpointConfig) :
  (schema.Implementation c = AuthzImplementation_String AuthzImplForwardAuth ->
   impl (WithEndpointConfig b c) = AuthzImplForwardAuth) /\
  (schema.Implementation c <> AuthzImplementation_String AuthzImplForwardAuth ->
   schema.Implementation c = AuthzImplementation_String AuthzImplAuthRequest ->
   impl (WithEndpointConfig b c) = AuthzImplAuthRequest) /\
  (schema.Implementation c <> AuthzImplementation_String AuthzImplForwardAuth ->
   schema.Implementation c <> AuthzImplementation_String AuthzImplAuthRequest ->
   impl (WithEndpointConfig b c) = AuthzImplLegacy).
Proof.
  rewrite WithEndpointConfig_impl_eq. unfold withImplementationNamed.
  repeat split; intros; repeat case_decide; try contradiction; reflexivity.
Qed.

Lemma elem_of_endpointStrategies_cookie r r' (c : schema.ServerAuthzEndpointConfig) :
  NewCookieSessionAuthnStrategy r' ∈ endpointStrategies r c -> r' = r.
Proof.
  unfold endpointStrategies. rewrite list_elem_of_omap.
  intros (s & _ & Hs). revert Hs. unfold strategyNamed.
  repeat case_decide; congruence.
Qed.

Lemma WithConfig_strategies (b : AuthzBuilder) c :
  strategies (WithConfig b c) = strategies b.
Proof. destruct c; reflexivity. Qed.

(** C4.  Every CookieSession strategy that [WithEndpointConfig] puts in the
    builder carries the RefreshInterval the builder's config had at the call,
    and there is one as soon as the configuration names CookieSession.  On a
    fresh builder, with no [WithConfig] before, that interval is -1 second.
    A [WithConfig] after the call leaves the strategies, and so their
    intervals, as they are. *)
Theorem WithEndpointConfig_cookie_interval (b : AuthzBuilder)
    (c : schema.ServerAuthzEndpointConfig) :
  (forall r, NewCookieSessionAuthnStrategy r ∈ strategies (WithEndpointConfig b c) ->
             r = RefreshInterval (config b)) /\
  ((exists s, s ∈ schema.AuthnStrategies c /\
              schema.Name s = AuthnStrategyCookieSession) ->
   NewCookieSessionAuthnStrategy (RefreshInterval (config b))
     ∈ strategies (WithEndpointConfig b c)) /\
  (forall r, NewCookieSessionAuthnStrategy r
               ∈ strategies (WithEndpointConfig NewAuthzBuilder c) ->
             r = -1000000000) /\
  (forall later : option schema.Configuration,
     strategies (WithConfig (WithEndpointConfig b c) later) =
     strategies (WithEndpointConfig b c)).
Proof.
  repeat split.
  - intros r. rewrite WithEndpointConfig_strategies.
    apply elem_of_endpointStrategies_cookie.
  - intros (s & Hin & Hname). rewrite WithEndpointConfig_strategies.
    unfold endpointStrategies. apply list_elem_of_omap.
    exists s. split; [exact Hin|].
    unfold strategyNamed. case_decide; [reflexivity | contradiction].
  - intros r. rewrite WithEndpointConfig_strategies.
    intros Hr. apply elem_of_endpointStrategies_cookie in Hr. exact Hr.
  - intros later. apply WithConfig_strategies.
Qed.

Lemma strategyNamed_is_Some r name :
  is_Some (strategyNamed r name) <-> name ∈ recognizedStrategyNames.
Proof.
  unfold strategyNamed, recognizedStrategyNames.
  rewrite !elem_of_cons, elem_of_nil.
  repeat case_decide; split; intros Hx; eauto 10.
  - destruct Hx as [? Hx]; discriminate.
  - destruct Hx as [?|[?|[?|[?|[?|[]]]]]]; contradiction.
Qed.

Lemma tag_of_strategyNamed r r' name :
  tag_of <$> strategyNamed r name = tag_of <$> strategyNamed r' name.
Proof. unfold strategyNamed. repeat case_decide; reflexivity. Qed.

Lemma tags_endpointStrategies r r' (c : schema.ServerAuthzEndpointConfig) :
  map tag_of (endpointStrategies r c) = map tag_of (endpointStrategies r' c).
Proof.
  unfold endpointStrategies.
  induction (schema.AuthnStrategies c) as [|s l IH]; simpl; [reflexivity|].
  pose proof (tag_of_strategyNamed r r' (schema.Name s)) as Ht.
  destruct (strategyNamed r (schema.Name s)), (strategyNamed r' (schema.Name s));
    simpl in *; try discriminate; [|exact IH].
  injection Ht as ->. f_equal. exact IH.
Qed.

Lemma length_endpointStrategies r (c : schema.ServerAuthzEndpointConfig) :
  length (endpointStrategies r c) =
  length (filter (fun s => schema.Name s ∈ recognizedStrategyNames)
                 (schema.AuthnStrategies c)).
Proof.
  unfold endpointStrategies.
  induction (schema.AuthnStrategies c) as [|s l IH]; simpl; [reflexivity|].
  pose proof (strategyNamed_is_Some r (schema.Name s)) as Hs.
  rewrite filter_cons. case_decide as Hin.
  - apply Hs in Hin. destruct Hin as [x ->]. simpl. f_equal. exact IH.
  - destruct (strategyNamed r (schema.Name s)) as [x|] eqn:E; [|exact IH].
    exfalso. apply Hin, Hs. eauto.
Qed.

(** C5, as amended.  [WithEndpointConfig] drops the strategies the builder
    had and reads the configuration's strategy list once, in order: a
    recognized name (one of the five) gives one strategy, any other name
    gives none and no error.  So the result depends only on the endpoint
    configuration and on the RefreshInterval of the builder's config, which
    the CookieSession strategies carry: it is the same from any two builders
    with the same RefreshInterval, whatever strategies and implementation
    they had, and which kinds of strategy it holds is the same from any two
    builders at all. *)
Theorem WithEndpointConfig_strategies_from_config (b : AuthzBuilder)
    (c : schema.ServerAuthzEndpointConfig) :
  strategies (WithEndpointConfig b c) =
    omap (fun s => strategyNamed (RefreshInterval (config b)) (schema.Name s))
         (schema.AuthnStrategies c) /\
  (forall r name, is_Some (strategyNamed r name) <-> name ∈ recognizedStrategyNames) /\
  length (strategies (WithEndpointConfig b c)) =
    length (filter (fun s => schema.Name s ∈ recognizedStrategyNames)
                   (schema.AuthnStrategies c)) /\
  (forall b' : AuthzBuilder,
     RefreshInterval (config b') = RefreshInterval (config b) ->
     strategies (WithEndpointConfig b' c) = strategies (WithEndpointConfig b c)) /\
  (forall b' : AuthzBuilder,
     map tag_of (strategies (WithEndpointConfig b' c)) =
     map tag_of (strategies (WithEndpointConfig b c))).
Proof.
  repeat split.
  - apply WithEndpointConfig_strategies.
  - apply strategyNamed_is_Some.
  - apply strategyNamed_is_Some.
  - rewrite WithEndpointConfig_strategies. apply length_endpointStrategies.
  - intros b' Hc. rewrite !WithEndpointConfig_strategies, Hc. reflexivity.
  - intros b'. rewrite !WithEndpointConfig_strategies. apply tags_endpointStrategies.
Qed.

(** C6.  [WithConfig] with a configuration (not nil) sets the builder's
    config: the RefreshInterval is -1 second for the disabled policy, 0 for
    the always policy, and what [ParseDurationString] returns for any other
    policy string; Domains is one domain, named by the session cookie domain
    after a dot, with no portal URL.  The two policy constants are different,
    as the [switch] on them requires. *)
Theorem WithConfig_some (b : AuthzBuilder) (c : schema.Configuration) :
  ProfileRefreshDisabled <> ProfileRefreshAlways ->
  (schema.AuthenticationBackend_RefreshInterval
     (schema.Configuration_AuthenticationBackend c) = ProfileRefreshDisabled ->
   RefreshInterval (config (WithConfig b (Some c))) = -1000000000) /\
  (schema.AuthenticationBackend_RefreshInterval
     (schema.Configuration_AuthenticationBackend c) = ProfileRefreshAlways ->
   RefreshInterval (config (WithConfig b (Some c))) = 0) /\
  (schema.AuthenticationBackend_RefreshInterval
     (schema.Configuration_AuthenticationBackend c) <> ProfileRefreshDisabled ->
   schema.AuthenticationBackend_RefreshInterval
     (schema.Configuration_AuthenticationBackend c) <> ProfileRefreshAlways ->
   RefreshInterval (config (WithConfig b (Some c))) =
     fst (ParseDurationString
            (schema.AuthenticationBackend_RefreshInterval
               (schema.Configuration_AuthenticationBackend c)))) /\
  Domains (config (WithConfig b (Some c))) =
    [ {| AuthzDomain_Name :=
           String "."%char (schema.Session_Domain (schema.Configuration_Session c));
         PortalURL := None |} ].
Proof.
  intros Hne. simpl. unfold refreshIntervalOf.
  repeat split; intros; repeat case_decide; try congruence; reflexivity.
Qed.

(** C7.  Whatever the builder, so for each of the three implementations,
    [Build] stores the same two functions for verifying the object and for
    rendering an authorized answer, the standard ones.  The functions for
    deriving the object and for rendering an unauthorized answer are those of
    the builder's implementation, a different pair for each of the three. *)
Theorem Build_funcs :
  (forall b : AuthzBuilder,
     fObjectVerify (Build b) = Some authzObjectVerifyStandard /\
     fHandleAuthorized (Build b) = Some authzHandleAuthorizedStandard) /\
  (forall b1 b2 : AuthzBuilder,
     fObjectVerify (Build b1) = fObjectVerify (Build b2) /\
     fHandleAuthorized (Build b1) = fHandleAuthorized (Build b2)) /\
  (forall b1 b2 : AuthzBuilder,
     impl b1 = impl b2 ->
     fObjectGet (Build b1) = fObjectGet (Build b2) /\
     fHandleUnauthorized (Build b1) = fHandleUnauthorized (Build b2)) /\
  (AuthzImplLegacy <> AuthzImplForwardAuth ->
   AuthzImplLegacy <> AuthzImplAuthRequest ->
   AuthzImplForwardAuth <> AuthzImplAuthRequest ->
   forall b : AuthzBuilder,
     (impl b = AuthzImplLegacy ->
      fObjectGet (Build b) = Some authzGetObjectImplLegacy /\
      fHandleUnauthorized (Build b) = Some authzHandleUnauthorizedImplLegacy) /\
     (impl b = AuthzImplForwardAuth ->
      fObjectGet (Build b) = Some authzGetObjectImplForwardAuth /\
      fHandleUnauthorized (Build b) = Some authzHandleUnauthorizedImplForwardAuth) /\
     (impl b = AuthzImplAuthRequest ->
      fObjectGet (Build b) = Some authzGetObjectImplAuthRequest /\
      fHandleUnauthorized (Build b) = Some authzHandleUnauthorizedImplAuthRequest)).
Proof.
  assert (Hstd : forall b : AuthzBuilder,
             fObjectVerify (Build b) = Some authzObjectVerifyStandard /\
             fHandleAuthorized (Build b) = Some authzHandleAuthorizedStandard).
  { intros b. unfold Build.
    repeat case_decide; simpl; destruct (_ =? _)%Z; split; reflexivity. }
  split; [exact Hstd|]. split; [|split].
  - intros b1 b2. destruct (Hstd b1) as [-> ->], (Hstd b2) as [-> ->].
    split; reflexivity.
  - intros b1 b2 Hi. unfold Build. rewrite Hi.
    repeat case_decide; simpl; repeat destruct (_ =? _)%Z; split; reflexivity.
  - intros HLF HLA HFA b. unfold Build.
    repeat split; intros; repeat case_decide; try congruence; reflexivity.
Qed.

(** C8.  [WithConfig] with a nil configuration returns the builder as it
    was: same config (RefreshInterval and Domains), same strategies, same
    implementation. *)
Theorem WithConfig_nil (b : AuthzBuilder) :
  WithConfig b None = b /\
  RefreshInterval (config (WithConfig b None)) = RefreshInterval (config b) /\
  Domains (config (WithConfig b None)) = Domains (config b) /\
  strategies (WithConfig b None) = strategies b /\
  impl (WithConfig b None) = impl b.
Proof. repeat split. Qed.

End BuilderProperties.

(** ** getWebAuthnUser *)
Section WebAuthnProperties.
Context {WebauthnDevice : Type}.

(** C9.  [getWebAuthnUser] fails exactly when loading the devices fails, and
    then returns that error and no user.  Otherwise it returns a user with the
    session's Username, the loaded devices, and the session's DisplayName, or
    the Username when that DisplayName is empty; so the DisplayName returned
    is not empty unless the Username is. *)
Theorem getWebAuthnUser_spec (ctx : AutheliaCtx WebauthnDevice)
    (userSession : session.UserSession) :
  (forall devices e,
     LoadWebauthnDevicesByUsername (Providers_StorageProvider ctx)
       (session.Username userSession) = (devices, Some e) ->
     getWebAuthnUser ctx userSession = (None, Some e)) /\
  (forall devices,
     LoadWebauthnDevicesByUsername (Providers_StorageProvider ctx)
       (session.Username userSession) = (devices, None) ->
     getWebAuthnUser ctx userSession =
       (Some {| Username := session.Username userSession;
                DisplayName :=
                  if decide (session.DisplayName userSession = "")
                  then session.Username userSession
                  else session.DisplayName userSession;
                Devices := devices |},
        None)) /\
  (is_Some (snd (getWebAuthnUser ctx userSession)) <->
   is_Some (snd (LoadWebauthnDevicesByUsername (Providers_StorageProvider ctx)
                   (session.Username userSession)))) /\
  (is_Some (snd (getWebAuthnUser ctx userSession)) ->
   fst (getWebAuthnUser ctx userSession) = None) /\
  (forall user,
     fst (getWebAuthnUser ctx userSession) = Some user ->
     snd (getWebAuthnUser ctx userSession) = None /\
     Username user = session.Username userSession /\
     (session.DisplayName userSession = "" -> DisplayName user = Username user) /\
     (session.DisplayName userSession <> "" ->
      DisplayName user = session.DisplayName userSession) /\
     (Username user <> "" -> DisplayName user <> "")).
Proof.
  unfold getWebAuthnUser.
  destruct (LoadWebauthnDevicesByUsername _ _) as [devices [e|]]; simpl.
  - split; [|split; [|split; [|split]]].
    + intros d e' [= _ ->]. reflexivity.
    + intros d [=].
    + split; intros _; eauto.
    + reflexivity.
    + intros user [=].
  - split; [|split; [|split; [|split]]].
    + intros d e' [=].
    + intros d [= ->]. case_decide; reflexivity.
    + split; intros [x Hx]; discriminate.
    + intros [x Hx]; discriminate.
    + intros user [= <-]. simpl. case_decide; repeat split; intros; simpl in *; congruence.
Qed.

End WebAuthnProperties.

(** ** LoadPreferred2FAMethod *)

Lemma string_app_assoc (a b c : string) : (a ++ b) ++ c = a ++ b ++ c.
Proof. induction a as [|x a IH]; [reflexivity | exact (f_equal (String x) IH)]. Qed.

Lemma errors_Is_refl (e : error) : errors_Is e e = true.
Proof. destruct e; cbn [errors_Is]; rewrite decide_True; reflexivity. Qed.

Lemma errors_Is_wrap msg (e target : error) :
  errors_Is e target = true -> errors_Is (wrapError msg e) target = true.
Proof. intros He. cbn [errors_Is]. case_decide; [reflexivity | exact He]. Qed.

(** C10.  [LoadPreferred2FAMethod] returns the stored method and no error
    when the query succeeds; the empty string and no error when the query's
    error is [sql.ErrNoRows], alone or wrapped; and the empty string with an
    error that wraps the query's error in every other case. *)
Theorem LoadPreferred2FAMethod_spec (p : storage.SQLProvider) (username : string) :
  (forall method,
     storage.db_GetContext p "" (storage.sqlSelectPreferred2FAMethod p) [username]
       = (method, None) ->
     storage.LoadPreferred2FAMethod p username = (method, None)) /\
  (forall method,
     storage.db_GetContext p "" (storage.sqlSelectPreferred2FAMethod p) [username]
       = (method, Some sql_ErrNoRows) ->
     storage.LoadPreferred2FAMethod p username = ("", None)) /\
  (forall method e,
     storage.db_GetContext p "" (storage.sqlSelectPreferred2FAMethod p) [username]
       = (method, Some e) ->
     errors_Is e sql_ErrNoRows = true ->
     storage.LoadPreferred2FAMethod p username = ("", None)) /\
  (forall method e,
     storage.db_GetContext p "" (storage.sqlSelectPreferred2FAMethod p) [username]
       = (method, Some e) ->
     errors_Is e sql_ErrNoRows = false ->
     exists wrapped,
       storage.LoadPreferred2FAMethod p username = ("", Some wrapped) /\
       errors_Unwrap wrapped = Some e /\
       errors_Is wrapped e = true /\
       Error wrapped =
         "error selecting preferred two factor method for user '"
           ++ username ++ "': " ++ Error e).
Proof.
  unfold storage.LoadPreferred2FAMethod.
  repeat split.
  - intros method ->. reflexivity.
  - intros method ->. reflexivity.
  - intros method e -> ->. reflexivity.
  - intros method e -> ->. eexists. split; [reflexivity|].
    unfold storage.fmt_Errorf_w. split; [reflexivity|]. split.
    + apply errors_Is_wrap, errors_Is_refl.
    + cbn [Error]. rewrite !string_app_assoc. reflexivity.
Qed.

(** * The properties at concrete inputs

    Each lemma below runs one of the theorems above on the concrete
    declarations [spec_declarations]. *)



(** C2, as the claim has it, fails: the implementation name [bogus] is none
    of [forward-auth], [auth-request] and [legacy] and the strategy list is
    empty, yet [Build] after [WithEndpointConfig] gives HeaderLegacy then
    CookieSession, not HeaderProxyAuthorization then CookieSession. *)
Lemma WithEndpointConfig_unrecognized_counterexample :
  (schema.Implementation (endpoint "bogus" [])
     ∉ ["forward-auth"; "auth-request"; "legacy"]) /\
  schema.AuthnStrategies (endpoint "bogus" []) = [] /\
  authz_strategies
    (Build (WithEndpointConfig fresh
              (endpoint "bogus" []))) =
    [NewHeaderLegacyAuthnStrategy; NewCookieSessionAuthnStrategy (-1000000000)] /\
  map tag_of
    (authz_strategies
       (Build (WithEndpointConfig fresh
                 (endpoint "bogus" [])))) <>
    [HeaderProxyAuthorization; CookieSession].
Proof.
  split; [|split; [|split]].
  - rewrite !not_elem_of_cons. repeat split; try discriminate. apply not_elem_of_nil.
  - reflexivity.
  - reflexivity.
  - discriminate.
Qed.

Lemma WithEndpointConfig_unrecognized_Build_witness :
  authz_strategies
    (Build (WithEndpointConfig fresh
              (endpoint "bogus" []))) =
    [NewHeaderLegacyAuthnStrategy; NewCookieSessionAuthnStrategy (-1000000000)].
Proof.
  apply (WithEndpointConfig_unrecognized_Build
           fresh (endpoint "bogus" []));
    [discriminate | discriminate | reflexivity].
Defined.

Lemma WithEndpointConfig_impl_witness :
  impl (WithEndpointConfig fresh
          (endpoint "forward-auth" [])) = SpecImplForwardAuth /\
  impl (WithEndpointConfig fresh
          (endpoint "auth-request" [])) = SpecImplAuthRequest /\
  impl (WithEndpointConfig fresh
          (endpoint "legacy" [])) = SpecImplLegacy /\
  impl (WithEndpointConfig fresh
          (endpoint "bogus" [])) = SpecImplLegacy.
Proof.
  split; [|split; [|split]].
  - apply (WithEndpointConfig_impl fresh
             (endpoint "forward-auth" [])). reflexivity.
  - apply (WithEndpointConfig_impl fresh
             (endpoint "auth-request" [])); [discriminate | reflexivity].
  - apply (WithEndpointConfig_impl fresh
             (endpoint "legacy" [])); discriminate.
  - apply (WithEndpointConfig_impl fresh
             (endpoint "bogus" [])); discriminate.
Defined.

Lemma WithEndpointConfig_cookie_interval_witness :
  NewCookieSessionAuthnStrategy (-1000000000)
    ∈ strategies
        (WithEndpointConfig fresh
           (endpoint "forward-auth" ["HeaderAuthorization"; "CookieSession"])) /\
  NewCookieSessionAuthnStrategy 300000000000
    ∈ strategies
        (WithEndpointConfig
           (WithConfig fresh
              (Some (configuration "300" "example.com")))
           (endpoint "forward-auth" ["HeaderAuthorization"; "CookieSession"])) /\
  strategies
    (WithConfig
       (WithEndpointConfig fresh
          (endpoint "forward-auth" ["HeaderAuthorization"; "CookieSession"]))
       (Some (configuration "300" "example.com"))) =
    [NewHeaderAuthorizationAuthnStrategy; NewCookieSessionAuthnStrategy (-1000000000)].
Proof.
  split; [|split].
  - apply (WithEndpointConfig_cookie_interval fresh
             (endpoint "forward-auth" ["HeaderAuthorization"; "CookieSession"])).
    exists {| schema.Name := "CookieSession" |}. split; [|reflexivity].
    simpl. apply list_elem_of_further, list_elem_of_here.
  - apply (WithEndpointConfig_cookie_interval
             (WithConfig fresh
                (Some (configuration "300" "example.com")))
             (endpoint "forward-auth" ["HeaderAuthorization"; "CookieSession"])).
    exists {| schema.Name := "CookieSession" |}. split; [|reflexivity].
    simpl. apply list_elem_of_further, list_elem_of_here.
  - destruct (WithEndpointConfig_cookie_interval fresh
                (endpoint "forward-auth" ["HeaderAuthorization"; "CookieSession"]))
      as (_ & _ & _ & Hlater).
    rewrite Hlater. reflexivity.
Defined.

Lemma WithEndpointConfig_strategies_from_config_witness :
  strategies
    (WithEndpointConfig
       (WithStrategyAuthorization fresh)
       (endpoint "legacy" ["HeaderLegacy"; "Basic"; "CookieSession"])) =
    [NewHeaderLegacyAuthnStrategy; NewCookieSessionAuthnStrategy (-1000000000)] /\
  strategies
    (WithEndpointConfig
       (WithStrategyAuthorization fresh)
       (endpoint "legacy" ["HeaderLegacy"; "Basic"; "CookieSession"])) =
  strategies
    (WithEndpointConfig fresh
       (endpoint "legacy" ["HeaderLegacy"; "Basic"; "CookieSession"])).
Proof.
  destruct (WithEndpointConfig_strategies_from_config
              fresh
              (endpoint "legacy" ["HeaderLegacy"; "Basic"; "CookieSession"]))
    as (_ & _ & _ & Hsame & _).
  split.
  - rewrite (Hsame (WithStrategyAuthorization fresh) eq_refl).
    reflexivity.
  - apply Hsame. reflexivity.
Defined.

(** C5, as the claim has it, fails in its last clause: two builders with no
    strategy configured, given the same endpoint configuration, end with
    different strategy lists, because the CookieSession strategy takes its
    interval from the builder's config. *)
Lemma WithEndpointConfig_strategies_counterexample :
  strategies fresh = [] /\
  strategies (WithConfig fresh (Some (configuration "300" "example.com"))) = [] /\
  strategies (WithEndpointConfig fresh (endpoint "forward-auth" ["CookieSession"])) =
    [NewCookieSessionAuthnStrategy (-1000000000)] /\
  strategies
    (WithEndpointConfig
       (WithConfig fresh (Some (configuration "300" "example.com")))
       (endpoint "forward-auth" ["CookieSession"])) =
    [NewCookieSessionAuthnStrategy 300000000000] /\
  strategies (WithEndpointConfig fresh (endpoint "forward-auth" ["CookieSession"])) <>
  strategies
    (WithEndpointConfig
       (WithConfig fresh (Some (configuration "300" "example.com")))
       (endpoint "forward-auth" ["CookieSession"])).
Proof.
  split; [reflexivity|]. split; [reflexivity|]. split; [reflexivity|].
  split; [reflexivity|]. discriminate.
Qed.

Lemma WithConfig_some_witness :
  config (WithConfig fresh
            (Some (configuration "disabled" "example.com"))) =
    {| RefreshInterval := -1000000000;
       Domains := [ {| AuthzDomain_Name := ".example.com"; PortalURL := None |} ] |} /\
  RefreshInterval
    (config (WithConfig fresh
               (Some (configuration "always" "example.com")))) = 0 /\
  RefreshInterval
    (config (WithConfig fresh
               (Some (configuration "300" "example.com")))) = 300000000000.
Proof.
  assert (Hne : @ProfileRefreshDisabled spec_declarations
                <> @ProfileRefreshAlways spec_declarations) by discriminate.
  split; [|split].
  - destruct (WithConfig_some fresh
                (configuration "disabled" "example.com") Hne)
      as (Hdisabled & _ & _ & Hdomains).
    specialize (Hdisabled eq_refl).
    destruct (config (WithConfig _ _)) as [r d]. simpl in *.
    rewrite Hdisabled, Hdomains. reflexivity.
  - destruct (WithConfig_some fresh
                (configuration "always" "example.com") Hne)
      as (_ & Halways & _).
    apply Halways. reflexivity.
  - destruct (WithConfig_some fresh
                (configuration "300" "example.com") Hne)
      as (_ & _ & Hparsed & _).
    rewrite Hparsed; [reflexivity | vm_compute; discriminate | vm_compute; discriminate].
Defined.

Lemma Build_funcs_witness :
  fObjectVerify (Build (WithImplementationLegacy fresh)) =
  fObjectVerify (Build (WithImplementationAuthRequest fresh))
  /\
  fObjectGet (Build (WithImplementationForwardAuth fresh)) =
    Some authzGetObjectImplForwardAuth /\
  fHandleUnauthorized
    (Build (WithImplementationAuthRequest fresh)) =
    Some authzHandleUnauthorizedImplAuthRequest.
Proof.
  destruct (@Build_funcs spec_declarations) as (_ & Hsame & _ & Hvariant).
  assert (HLF : @AuthzImplLegacy spec_declarations <> AuthzImplForwardAuth)
    by discriminate.
  assert (HLA : @AuthzImplLegacy spec_declarations <> AuthzImplAuthRequest)
    by discriminate.
  assert (HFA : @AuthzImplForwardAuth spec_declarations <> AuthzImplAuthRequest)
    by discriminate.
  split; [|split].
  - apply Hsame.
  - apply (Hvariant HLF HLA HFA (WithImplementationForwardAuth fresh)).
    reflexivity.
  - apply (Hvariant HLF HLA HFA (WithImplementationAuthRequest fresh)).
    reflexivity.
Defined.

Lemma getWebAuthnUser_spec_witness :
  getWebAuthnUser example_ctx
    {| session.Username := "john"; session.DisplayName := "" |} =
    (Some {| Username := "john"; DisplayName := "john"; Devices := ["yubikey"] |},
     None) /\
  getWebAuthnUser example_ctx
    {| session.Username := "harry"; session.DisplayName := "Harry" |} =
    (None, Some (errors_New "database is locked")).
Proof.
  split.
  - destruct (getWebAuthnUser_spec example_ctx
                {| session.Username := "john"; session.DisplayName := "" |})
      as (_ & Hok & _).
    apply (Hok ["yubikey"]). reflexivity.
  - destruct (getWebAuthnUser_spec example_ctx
                {| session.Username := "harry"; session.DisplayName := "Harry" |})
      as (Herr & _).
    apply (Herr []). reflexivity.
Defined.

Lemma LoadPreferred2FAMethod_spec_witness :
  storage.LoadPreferred2FAMethod example_provider "john" = ("totp", None) /\
  storage.LoadPreferred2FAMethod example_provider "harry" = ("", None) /\
  exists wrapped,
    storage.LoadPreferred2FAMethod example_provider "james" = ("", Some wrapped) /\
    errors_Unwrap wrapped = Some (errors_New "connection refused").
Proof.
  split; [|split].
  - destruct (LoadPreferred2FAMethod_spec example_provider "john") as (Hok & _).
    apply Hok. reflexivity.
  - destruct (LoadPreferred2FAMethod_spec example_provider "harry")
      as (_ & Hnorows & _).
    apply (Hnorows ""). reflexivity.
  - destruct (LoadPreferred2FAMethod_spec example_provider "james")
      as (_ & _ & _ & Hfail).
    destruct (Hfail "" (errors_New "connection refused") eq_refl eq_refl)
      as (wrapped & Hload & Hunwrap & _).
    exists wrapped. split; [exact Hload | exact Hunwrap].
Defined.

(** * More about the builder *)
Section BuilderMore.
Context `{Declarations}.

Lemma builder_ext (b1 b2 : AuthzBuilder) :
  config b1 = config b2 -> impl b1 = impl b2 -> strategies b1 = strategies b2 ->
  b1 = b2.
Proof. destruct b1, b2; simpl; intros -> -> ->; reflexivity. Qed.

Lemma withImplementationNamed_impl (b : AuthzBuilder) name :
  impl (withImplementationNamed b name) = implementationNamed name.
Proof.
  unfold withImplementationNamed, implementationNamed.
  repeat case_decide; reflexivity.
Qed.

Lemma WithEndpointConfig_fields (b : AuthzBuilder) c :
  WithEndpointConfig b c =
  {| config := config b;
     impl := implementationNamed (schema.Implementation c);
     strategies := endpointStrategies (RefreshInterval (config b)) c |}.
Proof.
  apply builder_ext; simpl.
  - apply WithEndpointConfig_config.
  - rewrite WithEndpointConfig_impl_eq. apply withImplementationNamed_impl.
  - apply WithEndpointConfig_strategies.
Qed.

Lemma Build_strategies_cons (b : AuthzBuilder) s l :
  strategies b = s :: l -> authz_strategies (Build b) = s :: l.
Proof.
  intros Hs. unfold Build. simpl. rewrite Hs. simpl.
  repeat case_decide; reflexivity.
Qed.

Lemma Build_config (b : AuthzBuilder) : authz_config (Build b) = config b.
Proof.
  unfold Build. repeat case_decide; simpl; destruct (_ =? _)%Z; reflexivity.
Qed.

Lemma defaultStrategies_shape (b : AuthzBuilder) :
  exists header,
    defaultStrategies b =
      [header; NewCookieSessionAuthnStrategy (RefreshInterval (config b))] /\
    tag_of header <> CookieSession.
Proof.
  unfold defaultStrategies. repeat case_decide; eexists; split;
    try reflexivity; discriminate.
Qed.

(** X1.  [Build] never returns an [Authz] without strategies: the strategies
    of the builder are passed on as they are when there is at least one, and
    otherwise the [Authz] gets two, a header strategy and then a CookieSession
    with the RefreshInterval of the config.  The config is always the
    builder's. *)
Theorem Build_strategies_never_empty (b : AuthzBuilder) :
  authz_strategies (Build b) <> [] /\
  (strategies b <> [] -> authz_strategies (Build b) = strategies b) /\
  (strategies b = [] ->
   exists header,
     authz_strategies (Build b) =
       [header; NewCookieSessionAuthnStrategy (RefreshInterval (config b))] /\
     tag_of header <> CookieSession) /\
  authz_config (Build b) = config b.
Proof.
  destruct (strategies b) as [|s l] eqn:Hs.
  - rewrite (Build_strategies_nil b Hs).
    destruct (defaultStrategies_shape b) as (header & Hd & Ht).
    rewrite Hd. split; [discriminate|]. split; [intros Hne; contradiction|].
    split; [|apply Build_config]. intros _. exists header. split; [reflexivity|exact Ht].
  - rewrite (Build_strategies_cons b s l Hs).
    split; [discriminate|]. split; [reflexivity|].
    split; [discriminate | apply Build_config].
Qed.

Lemma Build_fObjectGet (b : AuthzBuilder) :
  fObjectGet (Build b) =
  if decide (impl b = AuthzImplLegacy) then Some authzGetObjectImplLegacy
  else if decide (impl b = AuthzImplForwardAuth) then Some authzGetObjectImplForwardAuth
  else if decide (impl b = AuthzImplAuthRequest) then Some authzGetObjectImplAuthRequest
  else None.
Proof.
  unfold Build. repeat case_decide; simpl; try reflexivity.
  destruct (Z.eqb _ _); reflexivity.
Qed.

Lemma Build_fHandleUnauthorized (b : AuthzBuilder) :
  fHandleUnauthorized (Build b) =
  if decide (impl b = AuthzImplLegacy) then Some authzHandleUnauthorizedImplLegacy
  else if decide (impl b = AuthzImplForwardAuth)
  then Some authzHandleUnauthorizedImplForwardAuth
  else if decide (impl b = AuthzImplAuthRequest)
  then Some authzHandleUnauthorizedImplAuthRequest
  else None.
Proof.
  unfold Build. repeat case_decide; simpl; try reflexivity.
  destruct (Z.eqb _ _); reflexivity.
Qed.

Lemma Build_standard_funcs (b : AuthzBuilder) :
  fObjectVerify (Build b) = Some authzObjectVerifyStandard /\
  fHandleAuthorized (Build b) = Some authzHandleAuthorizedStandard.
Proof.
  unfold Build. repeat case_decide; simpl; destruct (Z.eqb _ _); split; reflexivity.
Qed.

(** X2.  [Build] leaves the function that derives the object and the one
    that renders an unauthorized answer nil exactly when the builder's
    implementation is none of Legacy, ForwardAuth and AuthRequest.  After
    [WithEndpointConfig] this cannot happen: all four functions are set. *)
Theorem Build_impl_funcs_nil (b : AuthzBuilder) :
  (fObjectGet (Build b) = None <->
   impl b ∉ [AuthzImplLegacy; AuthzImplForwardAuth; AuthzImplAuthRequest]) /\
  (fHandleUnauthorized (Build b) = None <->
   impl b ∉ [AuthzImplLegacy; AuthzImplForwardAuth; AuthzImplAuthRequest]) /\
  (forall c : schema.ServerAuthzEndpointConfig,
     is_Some (fObjectGet (Build (WithEndpointConfig b c))) /\
     is_Some (fObjectVerify (Build (WithEndpointConfig b c))) /\
     is_Some (fHandleAuthorized (Build (WithEndpointConfig b c))) /\
     is_Some (fHandleUnauthorized (Build (WithEndpointConfig b c)))).
Proof.
  assert (Hnil : forall b0 : AuthzBuilder,
             (fObjectGet (Build b0) = None <->
              impl b0 ∉ [AuthzImplLegacy; AuthzImplForwardAuth; AuthzImplAuthRequest]) /\
             (fHandleUnauthorized (Build b0) = None <->
              impl b0 ∉ [AuthzImplLegacy; AuthzImplForwardAuth; AuthzImplAuthRequest])).
  { intros b0. rewrite Build_fObjectGet, Build_fHandleUnauthorized.
    rewrite !not_elem_of_cons.
    repeat case_decide; split;
      (split; [intros Hx; try discriminate Hx | intros (? & ? & ? & _)]);
      try contradiction; try reflexivity.
    all: repeat split; try assumption; apply not_elem_of_nil. }
  split; [apply Hnil|]. split; [apply Hnil|].
  intros c.
  assert (Hin : impl (WithEndpointConfig b c)
                  ∈ [AuthzImplLegacy; AuthzImplForwardAuth; AuthzImplAuthRequest]).
  { rewrite WithEndpointConfig_impl_eq, withImplementationNamed_impl.
    unfold implementationNamed. rewrite !elem_of_cons.
    repeat case_decide; auto. }
  destruct (Hnil (WithEndpointConfig b c)) as [Hget Hun].
  destruct (Build_standard_funcs (WithEndpointConfig b c)) as [Hv Ha].
  split; [|split; [|split]].
  - destruct (fObjectGet _); [eauto|]. exfalso. apply Hget; [reflexivity|exact Hin].
  - rewrite Hv. eauto.
  - rewrite Ha. eauto.
  - destruct (fHandleUnauthorized _); [eauto|]. exfalso. apply Hun; [reflexivity|exact Hin].
Qed.

(** X3.  What [WithEndpointConfig] returns depends on the builder only
    through its config: the implementation and the strategies set before are
    both replaced.  So of two calls in a row only the second counts. *)
Theorem WithEndpointConfig_last_wins (b : AuthzBuilder)
    (c : schema.ServerAuthzEndpointConfig) :
  (forall b' : AuthzBuilder,
     config b' = config b -> WithEndpointConfig b' c = WithEndpointConfig b c) /\
  (forall c0 : schema.ServerAuthzEndpointConfig,
     WithEndpointConfig (WithEndpointConfig b c0) c = WithEndpointConfig b c) /\
  (forall l : list AuthnStrategy,
     WithEndpointConfig (WithStrategies b l) c = WithEndpointConfig b c) /\
  WithEndpointConfig (WithImplementationLegacy b) c = WithEndpointConfig b c /\
  WithEndpointConfig (WithImplementationForwardAuth b) c = WithEndpointConfig b c /\
  WithEndpointConfig (WithImplementationAuthRequest b) c = WithEndpointConfig b c.
Proof.
  assert (Hc : forall b' : AuthzBuilder,
             config b' = config b -> WithEndpointConfig b' c = WithEndpointConfig b c).
  { intros b' Hb. rewrite !WithEndpointConfig_fields, Hb. reflexivity. }
  split; [exact Hc|]. split; [|split; [|split; [|split]]].
  - intros c0. apply Hc, WithEndpointConfig_config.
  - intros l. apply Hc. reflexivity.
  - apply Hc. reflexivity.
  - apply Hc. reflexivity.
  - apply Hc. reflexivity.
Qed.

Lemma strategyNamed_other r r' name :
  name <> AuthnStrategyCookieSession -> strategyNamed r name = strategyNamed r' name.
Proof. intros Hn. unfold strategyNamed. case_decide; [contradiction | reflexivity]. Qed.

Lemma endpointStrategies_no_cookie r r' (c : schema.ServerAuthzEndpointConfig) :
  ~ namesCookieSession c -> endpointStrategies r c = endpointStrategies r' c.
Proof.
  unfold namesCookieSession, endpointStrategies.
  induction (schema.AuthnStrategies c) as [|s l IH]; intros Hno; [reflexivity|].
  assert (Hs : strategyNamed r (schema.Name s) = strategyNamed r' (schema.Name s)).
  { apply strategyNamed_other. intros Hs. apply Hno.
    exists s. split; [apply list_elem_of_here | exact Hs]. }
  assert (Hl : omap (fun s => strategyNamed r (schema.Name s)) l =
               omap (fun s => strategyNamed r' (schema.Name s)) l).
  { apply IH. intros (s' & Hin & Hs'). apply Hno.
    exists s'. split; [apply list_elem_of_further, Hin | exact Hs']. }
  simpl. rewrite Hs. destruct (strategyNamed r' (schema.Name s)).
  - f_equal. exact Hl.
  - exact Hl.
Qed.

Lemma endpointStrategies_cookie r (c : schema.ServerAuthzEndpointConfig) :
  namesCookieSession c -> NewCookieSessionAuthnStrategy r ∈ endpointStrategies r c.
Proof.
  intros (s & Hin & Hname). unfold endpointStrategies. apply list_elem_of_omap.
  exists s. split; [exact Hin|].
  unfold strategyNamed. case_decide; [reflexivity | contradiction].
Qed.

(** X4.  When the order of [WithConfig] and [WithEndpointConfig] matters.
    If the endpoint configuration does not name CookieSession the two calls
    commute.  If it does, calling [WithConfig] second leaves the strategies
    that calling it first would give exactly when it does not change the
    RefreshInterval. *)
Theorem WithConfig_WithEndpointConfig_order (b : AuthzBuilder)
    (e : schema.ServerAuthzEndpointConfig) (c : option schema.Configuration) :
  (~ namesCookieSession e ->
   WithConfig (WithEndpointConfig b e) c = WithEndpointConfig (WithConfig b c) e) /\
  (namesCookieSession e ->
   (strategies (WithConfig (WithEndpointConfig b e) c) =
    strategies (WithEndpointConfig (WithConfig b c) e) <->
    RefreshInterval (config (WithConfig b c)) = RefreshInterval (config b))).
Proof.
  split.
  - intros Hno.
    rewrite (WithEndpointConfig_fields (WithConfig b c)), (WithEndpointConfig_fields b).
    destruct c as [c|]; simpl; [|reflexivity].
    unfold set_config; simpl. f_equal.
    apply endpointStrategies_no_cookie, Hno.
  - intros Hyes. rewrite WithConfig_strategies, !WithEndpointConfig_strategies. split.
    + intros Heq.
      pose proof (endpointStrategies_cookie (RefreshInterval (config b)) e Hyes) as Hin.
      rewrite Heq in Hin. apply elem_of_endpointStrategies_cookie in Hin.
      symmetry. exact Hin.
    + intros ->. reflexivity.
Qed.

(** X5.  In an [Authz] built right after [WithEndpointConfig], every
    CookieSession strategy carries the RefreshInterval found in the config of
    that same [Authz], whether the strategies were named by the endpoint or
    are the defaults.  With [WithConfig] called first on a fresh builder, that
    interval is the one of the static configuration's policy. *)
Theorem Build_cookie_intervals_agree (b : AuthzBuilder)
    (e : schema.ServerAuthzEndpointConfig) (r : time.Duration) :
  NewCookieSessionAuthnStrategy r
    ∈ authz_strategies (Build (WithEndpointConfig b e)) ->
  r = RefreshInterval (authz_config (Build (WithEndpointConfig b e))) /\
  (forall c : schema.Configuration,
     b = WithConfig NewAuthzBuilder (Some c) ->
     r = refreshIntervalOf
           (schema.AuthenticationBackend_RefreshInterval
              (schema.Configuration_AuthenticationBackend c))).
Proof.
  intros Hin.
  assert (Hr : r = RefreshInterval (config b)).
  { destruct (strategies (WithEndpointConfig b e)) as [|s l] eqn:Hs.
    - rewrite (Build_strategies_nil _ Hs) in Hin.
      destruct (defaultStrategies_shape (WithEndpointConfig b e))
        as (header & Hd & Ht).
      rewrite Hd, WithEndpointConfig_config in Hin.
      rewrite !elem_of_cons, elem_of_nil in Hin.
      destruct Hin as [Hh | [Hc | []]].
      + subst header. contradiction Ht. reflexivity.
      + injection Hc as ->. reflexivity.
    - rewrite (Build_strategies_cons _ s l Hs), <- Hs in Hin.
      rewrite WithEndpointConfig_strategies in Hin.
      apply elem_of_endpointStrategies_cookie in Hin. exact Hin. }
  split.
  - rewrite Build_config, WithEndpointConfig_config. exact Hr.
  - intros c ->. exact Hr.
Qed.

Lemma endpointStrategies_unrecognized r (c : schema.ServerAuthzEndpointConfig) :
  (forall s, s ∈ schema.AuthnStrategies c ->
             schema.Name s ∉ recognizedStrategyNames) ->
  endpointStrategies r c = [].
Proof.
  unfold endpointStrategies.
  induction (schema.AuthnStrategies c) as [|s l IH]; intros Hno; [reflexivity|].
  simpl. destruct (strategyNamed r (schema.Name s)) as [x|] eqn:E.
  - exfalso. apply (Hno s); [apply list_elem_of_here|].
    apply (strategyNamed_is_Some r). rewrite E. eauto.
  - apply IH. intros s' Hin. apply Hno, list_elem_of_further, Hin.
Qed.

(** X6.  The strategies of an [Authz] built right after
    [WithEndpointConfig].  If the endpoint names at least one recognized
    strategy, they are the named ones and no default is added.  If it names
    none, they are the defaults of the implementation the endpoint's name
    selects: HeaderProxyAuthorization then CookieSession for the ForwardAuth
    name, HeaderAuthRequestProxyAuthorization then CookieSession for the
    AuthRequest name. *)
Theorem WithEndpointConfig_Build_strategies (b : AuthzBuilder)
    (e : schema.ServerAuthzEndpointConfig) :
  (endpointStrategies (RefreshInterval (config b)) e <> [] ->
   authz_strategies (Build (WithEndpointConfig b e)) =
     endpointStrategies (RefreshInterval (config b)) e) /\
  ((forall s, s ∈ schema.AuthnStrategies e ->
              schema.Name s ∉ recognizedStrategyNames) ->
   schema.Implementation e = AuthzImplementation_String AuthzImplForwardAuth ->
   AuthzImplForwardAuth <> AuthzImplLegacy ->
   AuthzImplForwardAuth <> AuthzImplAuthRequest ->
   authz_strategies (Build (WithEndpointConfig b e)) =
     [NewHeaderProxyAuthorizationAuthnStrategy;
      NewCookieSessionAuthnStrategy (RefreshInterval (config b))]) /\
  ((forall s, s ∈ schema.AuthnStrategies e ->
              schema.Name s ∉ recognizedStrategyNames) ->
   schema.Implementation e <> AuthzImplementation_String AuthzImplForwardAuth ->
   schema.Implementation e = AuthzImplementation_String AuthzImplAuthRequest ->
   AuthzImplAuthRequest <> AuthzImplLegacy ->
   authz_strategies (Build (WithEndpointConfig b e)) =
     [NewHeaderAuthRequestProxyAuthorizationAuthnStrategy;
      NewCookieSessionAuthnStrategy (RefreshInterval (config b))]).
Proof.
  split; [|split].
  - intros Hne.
    destruct (endpointStrategies (RefreshInterval (config b)) e) as [|s l] eqn:E;
      [contradiction|].
    apply Build_strategies_cons. rewrite WithEndpointConfig_strategies. exact E.
  - intros Hno Hname HFL HFA.
    rewrite Build_strategies_nil
      by (rewrite WithEndpointConfig_strategies;
          apply endpointStrategies_unrecognized, Hno).
    unfold defaultStrategies.
    rewrite WithEndpointConfig_impl_eq, withImplementationNamed_impl,
      WithEndpointConfig_config.
    unfold implementationNamed. repeat case_decide; congruence.
  - intros Hno Hnf Hname HAL.
    rewrite Build_strategies_nil
      by (rewrite WithEndpointConfig_strategies;
          apply endpointStrategies_unrecognized, Hno).
    unfold defaultStrategies.
    rewrite WithEndpointConfig_impl_eq, withImplementationNamed_impl,
      WithEndpointConfig_config.
    unfold implementationNamed. repeat case_decide; congruence.
Qed.

Lemma fold_applyStrategyCall (calls : list StrategyCall) :
  forall b : AuthzBuilder,
    fold_left applyStrategyCall calls b =
    set_strategies b (strategies b ++ map strategyOfCall calls).
Proof.
  induction calls as [|c calls IH]; intros b; simpl.
  - unfold set_strategies. rewrite app_nil_r. symmetry. apply builder_eta.
  - rewrite IH. destruct c; simpl; unfold set_strategies; simpl;
      rewrite <- app_assoc; reflexivity.
Qed.

(** X7.  [WithStrategies] followed by any number of calls to
    [WithStrategyCookie], [WithStrategyAuthorization] and
    [WithStrategyProxyAuthorization] gives the strategies passed to
    [WithStrategies] and then one strategy per call, in the order of the
    calls; config and implementation are not touched, and [Build] hands the
    list on unchanged when it is not empty. *)
Theorem strategy_calls_append (b : AuthzBuilder) (l : list AuthnStrategy)
    (calls : list StrategyCall) :
  strategies (fold_left applyStrategyCall calls (WithStrategies b l)) =
    (l ++ map strategyOfCall calls)%list /\
  config (fold_left applyStrategyCall calls (WithStrategies b l)) = config b /\
  impl (fold_left applyStrategyCall calls (WithStrategies b l)) = impl b /\
  ((l ++ map strategyOfCall calls)%list <> [] ->
   authz_strategies (Build (fold_left applyStrategyCall calls (WithStrategies b l))) =
     (l ++ map strategyOfCall calls)%list).
Proof.
  rewrite fold_applyStrategyCall. simpl.
  split; [reflexivity|]. split; [reflexivity|]. split; [reflexivity|].
  intros Hne. destruct ((l ++ map strategyOfCall calls)%list) as [|s0 l0] eqn:E;
    [contradiction|].
  apply Build_strategies_cons. reflexivity.
Qed.

End BuilderMore.

(** * The storage provider *)
Module SQLProviderFacts.
Import sql_provider.

Section ProviderProperties.
Context `{StorageDeclarations} {S : Type} `{!Database S}.

Lemma lastError_cons (e : error) (failures : list error) (err : option error) :
  lastError (e :: failures) err = lastError failures (Some e).
Proof.
  unfold lastError. destruct failures as [|e' failures]; [reflexivity|].
  rewrite last_cons. destruct (last (e' :: failures)) eqn:E; [reflexivity|].
  apply last_None in E. discriminate.
Qed.

(** The loop pings until a ping succeeds or the rounds are used up. *)
Lemma pingLoop_shape (rounds : nat) :
  forall (err : option error) (s : S),
  exists failures : list error,
    ((length failures < rounds)%nat /\
     result (pingLoop rounds err s) = None /\
     events (pingLoop rounds err s) = (failedPings failures ++ [EvPing None])%list) \/
    (length failures = rounds /\
     result (pingLoop rounds err s) = lastError failures err /\
     events (pingLoop rounds err s) = failedPings failures).
Proof.
  induction rounds as [|rounds IH]; intros err s.
  - exists []. right. repeat split.
  - cbn [pingLoop]. unfold bind, Ping, perform, Sleep.
    destruct (db_Ping s) as [[e|] s1] eqn:Hping.
    + destruct (IH (Some e) (time_Sleep (Millisecond * 500) s1))
        as (failures & [(Hlen & Hres & Hev) | (Hlen & Hres & Hev)]);
        exists (e :: failures);
        destruct (pingLoop rounds (Some e) (time_Sleep (Millisecond * 500) s1))
          as [[r evs] s2]; unfold result, events in *; simpl in *.
      * left. split; [lia|]. split; [exact Hres|]. rewrite Hev. reflexivity.
      * right. split; [lia|]. split; [rewrite lastError_cons; exact Hres|].
        rewrite Hev. reflexivity.
    + exists []. left. split; [simpl; lia|]. split; reflexivity.
Qed.

(** Every run of [StartupCheck], by cases. *)
Lemma StartupCheck_run (p : SQLProvider) (s : S) :
  (forall e, errOpen p = Some e ->
     StartupCheck p s =
       ((Some (storage.fmt_Errorf_w "error opening database: " e), []), s)) /\
  (errOpen p = None ->
   exists failures : list error,
     (length failures = 19%nat /\
      exists e, last failures = Some e /\
        events (StartupCheck p s) = failedPings failures /\
        result (StartupCheck p s) =
          Some (storage.fmt_Errorf_w "error pinging database: " e)) \/
     ((length failures < 19)%nat /\
      exists r1 : option error,
        (exists e1, r1 = Some e1 /\
           errors_Is e1 ErrSchemaEncryptionVersionUnsupported = false /\
           events (StartupCheck p s) =
             (failedPings failures ++
                [EvPing None; EvSchemaEncryptionCheckKey false r1])%list /\
           result (StartupCheck p s) = Some e1) \/
        (keyCheckPasses r1 /\
         exists r2 : option error,
           events (StartupCheck p s) =
             (failedPings failures ++
                [EvPing None; EvSchemaEncryptionCheckKey false r1;
                 EvSchemaMigrate true SchemaLatest r2])%list /\
           ((migrationPasses r2 /\ result (StartupCheck p s) = None) \/
            (exists e2, r2 = Some e2 /\ e2 <> ErrSchemaAlreadyUpToDate /\
               result (StartupCheck p s) =
                 Some (storage.fmt_Errorf_w "error during schema migrate: " e2)))))).
Proof.
  split.
  - intros e He. unfold StartupCheck. rewrite He. reflexivity.
  - intros Hopen. unfold StartupCheck. rewrite Hopen. unfold bind.
    destruct (pingLoop_shape 19 None s)
      as (failures & [(Hlen & Hres & Hev) | (Hlen & Hres & Hev)]);
      exists failures;
      destruct (pingLoop 19 None s) as [[r evs] s1];
      unfold result, events in *; simpl in Hres, Hev; subst r evs.
    + right. split; [exact Hlen|].
      unfold CheckKey, perform.
      destruct (SchemaEncryptionCheckKey false s1) as [r1 s2]. exists r1.
      assert (Hmig :
        exists r2 : option error,
          snd (fst (migrateToLatest s2)) = [EvSchemaMigrate true SchemaLatest r2] /\
          ((migrationPasses r2 /\ fst (fst (migrateToLatest s2)) = None) \/
           (exists e2, r2 = Some e2 /\ e2 <> ErrSchemaAlreadyUpToDate /\
              fst (fst (migrateToLatest s2)) =
                Some (storage.fmt_Errorf_w "error during schema migrate: " e2)))).
      { unfold migrateToLatest, bind, Migrate, perform.
        destruct (SchemaMigrate true SchemaLatest s2) as [[e2|] s3]; simpl.
        - case_decide as Hup; simpl.
          + exists (Some e2). split; [reflexivity|]. left. split; [|reflexivity].
            right. rewrite Hup. reflexivity.
          + exists (Some e2). split; [reflexivity|]. right. exists e2. auto.
        - exists None. split; [reflexivity|]. left. split; [left|]; reflexivity. }
      destruct r1 as [e1|].
      * destruct (errors_Is e1 ErrSchemaEncryptionVersionUnsupported) eqn:Hun; simpl.
        -- right. split; [right; eauto|].
           destruct Hmig as (r2 & Hev2 & Hr2). exists r2.
           destruct (migrateToLatest s2) as [[r evs2] s3]. simpl in *. subst evs2.
           rewrite <- app_assoc. split; [reflexivity | exact Hr2].
        -- left. exists e1. rewrite <- app_assoc. simpl. auto.
      * right. split; [left; reflexivity|].
        destruct Hmig as (r2 & Hev2 & Hr2). exists r2.
        destruct (migrateToLatest s2) as [[r evs2] s3]. simpl in *. subst evs2.
        rewrite <- app_assoc. split; [reflexivity | exact Hr2].
    + left. split; [exact Hlen|].
      unfold lastError. destruct (last failures) as [e|] eqn:Hlast.
      * exists e. split; [reflexivity|]. simpl. rewrite app_nil_r. split; reflexivity.
      * apply last_None in Hlast. subst failures. discriminate Hlen.
Qed.

(** X8.  [StartupCheck] does nothing to the database when opening it had
    failed.  Otherwise it pings at most 19 times, sleeping half a second
    after each failed ping.  After 19 failed pings it returns the last ping's
    error, wrapped, without looking at the schema.  After a ping that
    succeeds it checks the encryption key once; an error of that check other
    than the unsupported one is returned as it is, and in every other case
    the schema is migrated once, to [SchemaLatest]: no error or
    [ErrSchemaAlreadyUpToDate] then gives nil, any other error is returned
    wrapped. *)
Theorem StartupCheck_shape (p : SQLProvider) (s : S) :
  (forall e, errOpen p = Some e ->
     StartupCheck p s =
       ((Some (storage.fmt_Errorf_w "error opening database: " e), []), s)) /\
  (errOpen p = None ->
   exists failures : list error,
     (length failures = 19%nat /\
      exists e, last failures = Some e /\
        events (StartupCheck p s) = failedPings failures /\
        result (StartupCheck p s) =
          Some (storage.fmt_Errorf_w "error pinging database: " e)) \/
     ((length failures < 19)%nat /\
      exists r1 : option error,
        (exists e1, r1 = Some e1 /\
           errors_Is e1 ErrSchemaEncryptionVersionUnsupported = false /\
           events (StartupCheck p s) =
             (failedPings failures ++
                [EvPing None; EvSchemaEncryptionCheckKey false r1])%list /\
           result (StartupCheck p s) = Some e1) \/
        (keyCheckPasses r1 /\
         exists r2 : option error,
           events (StartupCheck p s) =
             (failedPings failures ++
                [EvPing None; EvSchemaEncryptionCheckKey false r1;
                 EvSchemaMigrate true SchemaLatest r2])%list /\
           ((migrationPasses r2 /\ result (StartupCheck p s) = None) \/
            (exists e2, r2 = Some e2 /\ e2 <> ErrSchemaAlreadyUpToDate /\
               result (StartupCheck p s) =
                 Some (storage.fmt_Errorf_w "error during schema migrate: " e2)))))).
Proof. exact (StartupCheck_run p s). Qed.

(** X9.  [StartupCheck] returns nil only after a run in which opening the
    database had not failed, one of the first 19 pings succeeded, the key
    check returned no error (or the unsupported one), and the migration
    returned no error (or [ErrSchemaAlreadyUpToDate]); it then performed just
    these operations, in this order. *)
Theorem StartupCheck_nil (p : SQLProvider) (s : S) :
  result (StartupCheck p s) = None ->
  errOpen p = None /\
  exists (failures : list error) (r1 r2 : option error),
    (length failures < 19)%nat /\
    events (StartupCheck p s) =
      (failedPings failures ++
         [EvPing None; EvSchemaEncryptionCheckKey false r1;
          EvSchemaMigrate true SchemaLatest r2])%list /\
    keyCheckPasses r1 /\ migrationPasses r2.
Proof.
  intros Hnil.
  destruct (StartupCheck_run p s) as [Hfail Hrun].
  destruct (errOpen p) as [e|] eqn:Hopen.
  - rewrite (Hfail e eq_refl) in Hnil. discriminate.
  - split; [reflexivity|].
    destruct (Hrun eq_refl)
      as (failures & [(_ & e & _ & _ & Hr)
                     | (Hlen & r1 & [(e1 & _ & _ & _ & Hr)
                                    | (Hkey & r2 & Hev & [(Hmig & _)
                                                         | (e2 & _ & _ & Hr)])])]);
      try (rewrite Hr in Hnil; discriminate).
    exists failures, r1, r2. auto.
Qed.

(** X10.  Transactions through the context.  When [BeginTX] succeeds, the
    context it returns holds the transaction begun under the transaction key
    and every other key as in the context given; [Commit] and [Rollback] on
    that context commit and roll back that very transaction and return its
    answer.  When the database cannot begin a transaction, [BeginTX] returns
    the error and no context.  On a context that holds no transaction,
    [Commit] and [Rollback] return an error without any operation. *)
Theorem BeginTX_Commit_Rollback (p : SQLProvider) (ctx : Context) (s : S) :
  (forall err, fst (db_Begin s) = inr err ->
     result (BeginTX p ctx s) = (None, Some err)) /\
  (forall ctx', fst (result (BeginTX p ctx s)) = Some ctx' ->
     exists tx,
       events (BeginTX p ctx s) = [EvBegin (inl tx)] /\
       snd (result (BeginTX p ctx s)) = None /\
       Context_Value ctx' ctxKeyTransaction = Some (ValueTx tx) /\
       (forall k, k <> ctxKeyTransaction ->
                  Context_Value ctx' k = Context_Value ctx k) /\
       (forall s',
          result (Commit p ctx' s') = fst (tx_Commit tx s') /\
          events (Commit p ctx' s') = [EvCommit tx (fst (tx_Commit tx s'))] /\
          final (Commit p ctx' s') = snd (tx_Commit tx s')) /\
       (forall s',
          result (Rollback p ctx' s') = fst (tx_Rollback tx s') /\
          events (Rollback p ctx' s') = [EvRollback tx (fst (tx_Rollback tx s'))] /\
          final (Rollback p ctx' s') = snd (tx_Rollback tx s'))) /\
  ((forall tx, Context_Value ctx ctxKeyTransaction <> Some (ValueTx tx)) ->
   forall s',
     Commit p ctx s' = ((Some (errors_New "could not retrieve tx"), []), s') /\
     Rollback p ctx s' = ((Some (errors_New "could not retrieve tx"), []), s')).
Proof.
  split; [|split].
  - intros err Herr. unfold BeginTX, bind, Begin, perform, result.
    destruct (db_Begin s) as [[tx|e] s1]; simpl in *; [discriminate|].
    injection Herr as ->. reflexivity.
  - intros ctx'. unfold BeginTX, bind, Begin, perform, result, events.
    destruct (db_Begin s) as [[tx|e] s1]; simpl; [|discriminate].
    intros [= <-]. exists tx. split; [reflexivity|]. split; [reflexivity|].
    assert (Hkey : Context_Value (WithValue ctx ctxKeyTransaction (ValueTx tx))
                     ctxKeyTransaction = Some (ValueTx tx)).
    { simpl. rewrite decide_True; reflexivity. }
    split; [exact Hkey|]. split; [|split].
    + intros k Hk. simpl. rewrite decide_False; [reflexivity|]. congruence.
    + intros s'. unfold Commit. rewrite Hkey. unfold Commit_tx, perform, final.
      destruct (tx_Commit tx s') as [r s2]. repeat split.
    + intros s'. unfold Rollback. rewrite Hkey. unfold Rollback_tx, perform, final.
      destruct (tx_Rollback tx s') as [r s2]. repeat split.
  - intros Hno s'. unfold Commit, Rollback.
    destruct (Context_Value ctx ctxKeyTransaction) as [[tx|v]|] eqn:Hv;
      try (split; reflexivity).
    exfalso. apply (Hno tx). reflexivity.
Qed.

(** X11.  [LoadUserInfo] selects the user's info and, only when that first
    select reports no row, upserts the first of [PossibleMethods] as the
    user's preferred method and selects once more; it never does more than
    these three operations, and a second select without a row is an error,
    not another round.  Whenever it returns an error, the info it returns is
    the zero [UserInfo].  It panics only on an empty [PossibleMethods], after
    a first select without a row and before anything is written. *)
Theorem LoadUserInfo_shape (p : SQLProvider) (username : string) (s : S) :
  (forall info e,
     result (LoadUserInfo p username s) = Some (info, Some e) ->
     info = UserInfo_zero) /\
  (length (events (LoadUserInfo p username s)) <= 3)%nat /\
  (exists err0,
     head (events (LoadUserInfo p username s)) =
       Some (EvGetContext (sqlSelectUserInfo p)
               [ArgString username; ArgString username;
                ArgString username; ArgString username] err0) /\
     (forall query args err,
        EvExecContext query args err ∈ events (LoadUserInfo p username s) ->
        query = sqlUpsertPreferred2FAMethod p /\
        (exists e0, err0 = Some e0 /\ errors_Is e0 sql_ErrNoRows = true) /\
        exists method rest,
          PossibleMethods = method :: rest /\
          args = [ArgString username; ArgString method]) /\
     (result (LoadUserInfo p username s) = None ->
      PossibleMethods = [] /\
      (exists e0, err0 = Some e0 /\ errors_Is e0 sql_ErrNoRows = true) /\
      length (events (LoadUserInfo p username s)) = 1%nat) /\
     (forall e0 e2,
        events (LoadUserInfo p username s) =
          [EvGetContext (sqlSelectUserInfo p)
             [ArgString username; ArgString username;
              ArgString username; ArgString username] (Some e0);
           EvExecContext (sqlUpsertPreferred2FAMethod p)
             [ArgString username; ArgString (default "" (head PossibleMethods))] None;
           EvGetContext (sqlSelectUserInfo p)
             [ArgString username; ArgString username;
              ArgString username; ArgString username] (Some e2)] ->
        result (LoadUserInfo p username s) =
          Some (UserInfo_zero,
                Some (storage.fmt_Errorf_w
                        ("error selecting user info for user '"
                           ++ username ++ "': ") e2)))) /\
  (PossibleMethods <> [] -> result (LoadUserInfo p username s) <> None).
Proof.
  unfold LoadUserInfo, bind, GetContext, ExecContext, perform, ret, result, events.
  destruct (db_GetContext DestUserInfo _ _ _ s) as [[info1 [e0|]] s1]; simpl.
  - destruct (errors_Is e0 sql_ErrNoRows) eqn:Hrows; simpl.
    + destruct PossibleMethods as [|method rest] eqn:Hm; simpl.
      * split; [intros ? ? [=]|]. split; [lia|]. split; [|congruence].
        exists (Some e0). split; [reflexivity|]. split; [|split].
        -- intros q a e Hin. rewrite !elem_of_cons, elem_of_nil in Hin; destruct Hin as [Hin|[]]. discriminate.
        -- intros _. eauto.
        -- intros ? ? [=].
      * destruct (db_ExecContext _ _ s1) as [[e1|] s2]; simpl.
        -- split; [intros ? ? [= <- _]; reflexivity|]. split; [lia|].
           split; [|discriminate].
           exists (Some e0). split; [reflexivity|]. split; [|split].
           ++ intros q a e Hin. rewrite !elem_of_cons, elem_of_nil in Hin.
              destruct Hin as [Hx | [Hx | []]]; [discriminate|].
              injection Hx as -> -> ->. eauto 8.
           ++ intros [=].
           ++ intros ? ? [=].
        -- destruct (db_GetContext DestUserInfo _ _ _ s2) as [[info2 [e2|]] s3]; simpl.
           ++ split; [intros ? ? [= <- _]; reflexivity|]. split; [lia|].
              split; [|discriminate].
              exists (Some e0). split; [reflexivity|]. split; [|split].
              ** intros q a e Hin. rewrite !elem_of_cons, elem_of_nil in Hin.
                 destruct Hin as [Hx | [Hx | [Hx | []]]]; try discriminate.
                 injection Hx as -> -> ->. eauto 8.
              ** intros [=].
              ** intros e0' e2' [= -> ->]. reflexivity.
           ++ split; [intros ? ? [=]|]. split; [lia|]. split; [|discriminate].
              exists (Some e0). split; [reflexivity|]. split; [|split].
              ** intros q a e Hin. rewrite !elem_of_cons, elem_of_nil in Hin.
                 destruct Hin as [Hx | [Hx | [Hx | []]]]; try discriminate.
                 injection Hx as -> -> ->. eauto 8.
              ** intros [=].
              ** intros ? ? [=].
    + split; [intros ? ? [= <- _]; reflexivity|]. split; [lia|].
      split; [|discriminate].
      exists (Some e0). split; [reflexivity|]. split; [|split].
      * intros q a e Hin. rewrite !elem_of_cons, elem_of_nil in Hin; destruct Hin as [Hin|[]]. discriminate.
      * intros [=].
      * intros ? ? [=].
  - split; [intros ? ? [=]|]. split; [lia|]. split; [|discriminate].
    exists None. split; [reflexivity|]. split; [|split].
    + intros q a e Hin. rewrite !elem_of_cons, elem_of_nil in Hin; destruct Hin as [Hin|[]]. discriminate.
    + intros [=].
    + intros ? ? [=].
Qed.

(** X12.  [FindIdentityVerification] finds a token exactly when the select
    succeeds, the row is not consumed and it does not expire before the
    instant the clock gives (a token that expires at that very instant is
    still found); a token found comes with no error.  No row is the one case
    of "not found, no error".  A consumed token is reported as such whatever
    its expiry, without reading the clock. *)
Theorem FindIdentityVerification_found (p : SQLProvider) (jti : string) (s s1 s2 : S)
    (verification : IdentityVerification) (err : option error) (now : Time) :
  db_GetContext DestIdentityVerification (sqlSelectIdentityVerification p)
    [ArgString jti] {| Consumed := None; ExpiresAt := 0 |} s
    = ((verification, err), s1) ->
  time_Now s1 = (now, s2) ->
  (fst (result (FindIdentityVerification p jti s)) = true <->
   err = None /\ Consumed verification = None /\ (now <= ExpiresAt verification)%Z) /\
  (fst (result (FindIdentityVerification p jti s)) = true ->
   snd (result (FindIdentityVerification p jti s)) = None) /\
  (result (FindIdentityVerification p jti s) = (false, None) <->
   exists e, err = Some e /\ errors_Is e sql_ErrNoRows = true) /\
  (err = None -> Consumed verification <> None ->
   result (FindIdentityVerification p jti s) =
     (false, Some (errors_New "the token has already been consumed")) /\
   events (FindIdentityVerification p jti s) =
     [EvGetContext (sqlSelectIdentityVerification p) [ArgString jti] None]).
Proof.
  intros Hget Hnow.
  unfold FindIdentityVerification, bind, GetContext, Now, Since, perform, ret,
    result, events.
  rewrite Hget. simpl. destruct err as [e|]; simpl.
  - destruct (errors_Is e sql_ErrNoRows) eqn:Hrows; simpl.
    + split; [split; [discriminate | intros ([=] & _)]|].
      split; [discriminate|]. split; [|intros [=]].
      split; [eauto | reflexivity].
    + split; [split; [discriminate | intros ([=] & _)]|].
      split; [discriminate|]. split; [|intros [=]].
      split; [discriminate | intros (e' & [= <-] & He'); congruence].
  - destruct (Consumed verification) as [t|] eqn:Hc; simpl.
    + split; [split; [discriminate | intros (_ & [=] & _)]|].
      split; [discriminate|].
      split; [split; [discriminate | intros (e' & [=] & _)]|].
      intros _ _. split; reflexivity.
    + rewrite Hnow. simpl.
      destruct (ExpiresAt verification <? now)%Z eqn:Hexp; simpl.
      * destruct (time_Since (ExpiresAt verification) s2) as [ago s3]. simpl.
        apply Z.ltb_lt in Hexp.
        split; [split; [discriminate | intros (_ & _ & Hle); lia]|].
        split; [discriminate|].
        split; [split; [discriminate | intros (e' & [=] & _)]|].
        intros _ Hx. contradiction Hx. reflexivity.
      * apply Z.ltb_ge in Hexp.
        split; [split; [auto | reflexivity]|].
        split; [reflexivity|].
        split; [split; [discriminate | intros (e' & [=] & _)]|].
        intros _ Hx. contradiction Hx. reflexivity.
Qed.

Lemma first_failure_unique {A : Type} (P : A -> Prop)
    (before : list A) (x : A) (after before' : list A) (x' : A) (after' : list A) :
  (before ++ x :: after)%list = (before' ++ x' :: after')%list ->
  Forall P before -> ~ P x -> Forall P before' -> ~ P x' -> x' = x.
Proof.
  revert before'. induction before as [|b0 before IH]; intros [|b1 before'] Heq Hb Hx Hb' Hx'.
  - injection Heq as -> _. reflexivity.
  - injection Heq as -> _. apply Forall_cons in Hb' as [Hb1 _]. contradiction.
  - injection Heq as -> _. apply Forall_cons in Hb as [Hb0 _]. contradiction.
  - injection Heq as -> Heq. apply Forall_cons in Hb as [_ Hb].
    apply Forall_cons in Hb' as [_ Hb']. exact (IH before' Heq Hb Hx Hb' Hx').
Qed.

Lemma decryptPublicKeys_spec (username : string) (devices : list WebauthnDevice) :
  (Forall (fun d => snd (decrypt (PublicKey d)) = None) devices /\
   decryptPublicKeys username devices = (map decrypted devices, None)) \/
  (exists before device after e,
     devices = (before ++ device :: after)%list /\
     Forall (fun d => snd (decrypt (PublicKey d)) = None) before /\
     snd (decrypt (PublicKey device)) = Some e /\
     decryptPublicKeys username devices =
       ([], Some (storage.fmt_Errorf_w
                    ("error decrypting Webauthn public key for user '"
                       ++ username ++ "': ") e))).
Proof.
  induction devices as [|device rest IH].
  - left. split; [constructor | reflexivity].
  - assert (Hpair : decrypt (PublicKey device) =
                      (fst (decrypt (PublicKey device)),
                       snd (decrypt (PublicKey device))))
      by apply surjective_pairing.
    cbn [decryptPublicKeys]. unfold decrypted at 1. simpl map.
    destruct (snd (decrypt (PublicKey device))) as [e|] eqn:Hd; rewrite Hpair.
    + right. exists [], device, rest, e.
      split; [reflexivity|]. split; [constructor|]. split; [exact Hd | reflexivity].
    + destruct IH as [(Hall & Hrest) | (before & d & after & e & -> & Hall & Hfail & Hrest)];
        rewrite Hrest.
      * left. split; [constructor; [exact Hd | exact Hall] | reflexivity].
      * right. exists (device :: before), d, after, e.
        split; [reflexivity|]. split; [|split; [exact Hfail | reflexivity]].
        constructor; [exact Hd | exact Hall].
Qed.

Lemma Forall_decrypt_not (before after : list WebauthnDevice) device e :
  snd (decrypt (PublicKey device)) = Some e ->
  ~ Forall (fun d => snd (decrypt (PublicKey d)) = None)
      (before ++ device :: after)%list.
Proof.
  intros Hfail Hall. apply Forall_app in Hall as [_ Hall].
  apply Forall_cons in Hall as [Hd _]. rewrite Hfail in Hd. discriminate.
Qed.

(** Every run of [LoadWebauthnDevicesByUsername], by the answer of its select. *)
Lemma LoadWebauthnDevicesByUsername_cases (p : SQLProvider)
    (username : string) (s s1 : S) (rows : list WebauthnDevice) (err : option error) :
  db_SelectContext DestWebauthnDevices (sqlSelectWebauthnDevicesByUsername p)
    [ArgString username] [] s = ((rows, err), s1) ->
  events (LoadWebauthnDevicesByUsername p username s) =
    [EvSelectContext (sqlSelectWebauthnDevicesByUsername p) [ArgString username] err] /\
  (snd (result (LoadWebauthnDevicesByUsername p username s)) = None <->
   err = None /\ Forall (fun d => snd (decrypt (PublicKey d)) = None) rows) /\
  (snd (result (LoadWebauthnDevicesByUsername p username s)) = None ->
   fst (result (LoadWebauthnDevicesByUsername p username s)) = map decrypted rows) /\
  (snd (result (LoadWebauthnDevicesByUsername p username s)) <> None ->
   fst (result (LoadWebauthnDevicesByUsername p username s)) = []) /\
  (err = None ->
   forall before device after e,
     rows = (before ++ device :: after)%list ->
     Forall (fun d => snd (decrypt (PublicKey d)) = None) before ->
     snd (decrypt (PublicKey device)) = Some e ->
     exists wrapped,
       snd (result (LoadWebauthnDevicesByUsername p username s)) = Some wrapped /\
       errors_Unwrap wrapped = Some e) /\
  (forall e, err = Some e -> errors_Is e sql_ErrNoRows = true ->
     result (LoadWebauthnDevicesByUsername p username s) =
       ([], Some ErrNoWebauthnDevice)).
Proof.
  intros Hsel.
  unfold LoadWebauthnDevicesByUsername, bind, SelectContext, perform, ret,
    result, events.
  rewrite Hsel. simpl. destruct err as [e|]; simpl.
  - destruct (errors_Is e sql_ErrNoRows) eqn:Hrows; simpl.
    + split; [reflexivity|]. split; [split; [discriminate | intros ([=] & _)]|].
      split; [discriminate|]. split; [reflexivity|]. split; [discriminate|].
      intros ? _ _. reflexivity.
    + split; [reflexivity|]. split; [split; [discriminate | intros ([=] & _)]|].
      split; [discriminate|]. split; [reflexivity|]. split; [discriminate|].
      intros e' [= <-]. congruence.
  - split; [reflexivity|].
    destruct (decryptPublicKeys_spec username rows)
      as [(Hall & ->) | (before & device & after & e & Hrows & Hall & Hfail & ->)];
      simpl.
    + split; [split; auto|]. split; [reflexivity|].
      split; [intros Hx; contradiction Hx; reflexivity|].
      split; [|discriminate].
      intros _ before device after e Hrows Hbefore Hfail. exfalso.
      apply (Forall_decrypt_not before after device e Hfail).
      rewrite <- Hrows. exact Hall.
    + split; [split; [discriminate|]|].
      { intros (_ & Hx). exfalso.
        apply (Forall_decrypt_not before after device e Hfail).
        rewrite <- Hrows. exact Hx. }
      split; [discriminate|]. split; [reflexivity|].
      split; [|discriminate].
      intros _ before' device' after' e' Hrows' Hbefore' Hfail'.
      eexists. split; [reflexivity|]. simpl.
      assert (Hsame : device' = device).
      { apply (first_failure_unique
                 (fun d => snd (decrypt (PublicKey d)) = None)
                 before device after before' device' after'); try assumption.
        - rewrite <- Hrows. exact Hrows'.
        - rewrite Hfail. discriminate.
        - rewrite Hfail'. discriminate. }
      subst device'. congruence.
Qed.

(** X13.  [LoadWebauthnDevicesByUsername] runs one select and returns all or
    nothing: without an error, the devices are the rows selected, in order,
    each with its public key decrypted; with an error, no device at all, even
    if some keys had been decrypted.  It succeeds exactly when the select
    does and every key decrypts; the error for an undecryptable key wraps the
    decryption error of the first such row; a select without rows gives
    [ErrNoWebauthnDevice]. *)
Theorem LoadWebauthnDevicesByUsername_all_or_nothing (p : SQLProvider)
    (username : string) (s s1 : S) (rows : list WebauthnDevice) (err : option error) :
  db_SelectContext DestWebauthnDevices (sqlSelectWebauthnDevicesByUsername p)
    [ArgString username] [] s = ((rows, err), s1) ->
  events (LoadWebauthnDevicesByUsername p username s) =
    [EvSelectContext (sqlSelectWebauthnDevicesByUsername p) [ArgString username] err] /\
  (snd (result (LoadWebauthnDevicesByUsername p username s)) = None <->
   err = None /\ Forall (fun d => snd (decrypt (PublicKey d)) = None) rows) /\
  (snd (result (LoadWebauthnDevicesByUsername p username s)) = None ->
   fst (result (LoadWebauthnDevicesByUsername p username s)) = map decrypted rows) /\
  (snd (result (LoadWebauthnDevicesByUsername p username s)) <> None ->
   fst (result (LoadWebauthnDevicesByUsername p username s)) = []) /\
  (err = None ->
   forall before device after e,
     rows = (before ++ device :: after)%list ->
     Forall (fun d => snd (decrypt (PublicKey d)) = None) before ->
     snd (decrypt (PublicKey device)) = Some e ->
     exists wrapped,
       snd (result (LoadWebauthnDevicesByUsername p username s)) = Some wrapped /\
       errors_Unwrap wrapped = Some e) /\
  (forall e, err = Some e -> errors_Is e sql_ErrNoRows = true ->
     result (LoadWebauthnDevicesByUsername p username s) =
       ([], Some ErrNoWebauthnDevice)).
Proof. exact (LoadWebauthnDevicesByUsername_cases p username s s1 rows err). Qed.

(** X15.  [LoadTOTPConfiguration] returns a configuration or an error, never
    both and never neither.  It succeeds exactly when the row is found and
    its secret decrypts, and then returns the row with the decrypted secret.
    A query that reports no row, directly or wrapped, gives
    [ErrNoTOTPConfiguration]. *)
Theorem LoadTOTPConfiguration_result (p : SQLProvider) (username : string)
    (s s1 : S) (row : TOTPConfiguration) (err : option error) :
  db_QueryRowxContext_StructScan DestTOTPConfiguration (sqlSelectTOTPConfig p)
    [ArgString username] {| TOTP_ID := 0; TOTP_Username := ""; Secret := [] |} s
    = ((row, err), s1) ->
  (is_Some (fst (result (LoadTOTPConfiguration p username s))) <->
   snd (result (LoadTOTPConfiguration p username s)) = None) /\
  (snd (result (LoadTOTPConfiguration p username s)) = None <->
   err = None /\ snd (decrypt (Secret row)) = None) /\
  (forall config,
     fst (result (LoadTOTPConfiguration p username s)) = Some config ->
     Secret config = fst (decrypt (Secret row)) /\
     TOTP_ID config = TOTP_ID row /\
     TOTP_Username config = TOTP_Username row) /\
  (forall e, err = Some e -> errors_Is e sql_ErrNoRows = true ->
     result (LoadTOTPConfiguration p username s) =
       (None, Some ErrNoTOTPConfiguration)).
Proof.
  intros Hq.
  unfold LoadTOTPConfiguration, bind, QueryRowxContext_StructScan, perform, ret,
    result.
  rewrite Hq. simpl. destruct err as [e|]; simpl.
  - destruct (errors_Is e sql_ErrNoRows) eqn:Hrows; simpl.
    + split; [split; [intros [? [=]] | discriminate]|].
      split; [split; [discriminate | intros ([=] & _)]|].
      split; [intros ? [=]|]. intros ? _ _. reflexivity.
    + split; [split; [intros [? [=]] | discriminate]|].
      split; [split; [discriminate | intros ([=] & _)]|].
      split; [intros ? [=]|]. intros e' [= <-]. congruence.
  - destruct (decrypt (Secret row)) as [secret [e|]]; simpl.
    + split; [split; [intros [? [=]] | discriminate]|].
      split; [split; [discriminate | intros (_ & [=])]|].
      split; [intros ? [=] | discriminate].
    + split; [split; [reflexivity | eauto]|].
      split; [split; auto|].
      split; [intros ? [= <-]; repeat split | discriminate].
Qed.

(** X16.  [LoadPreferredDuoDevice] returns a device or an error, never both
    and never neither.  It returns [ErrNoDuoDevice] when the query's error
    is [sql.ErrNoRows] itself; any other error, a wrapped [sql.ErrNoRows]
    included, comes back wrapped in a selection error. *)
Theorem LoadPreferredDuoDevice_result (p : SQLProvider) (username : string)
    (s s1 : S) (row : DuoDevice) (err : option error) :
  db_QueryRowxContext_StructScan DestDuoDevice (sqlSelectDuoDevice p)
    [ArgString username]
    {| Duo_Username := ""; Duo_Device := ""; Duo_Method := "" |} s
    = ((row, err), s1) ->
  (is_Some (fst (result (LoadPreferredDuoDevice p username s))) <->
   snd (result (LoadPreferredDuoDevice p username s)) = None) /\
  (err = None -> result (LoadPreferredDuoDevice p username s) = (Some row, None)) /\
  (err = Some sql_ErrNoRows ->
   result (LoadPreferredDuoDevice p username s) = (None, Some ErrNoDuoDevice)) /\
  (forall e, err = Some e -> e <> sql_ErrNoRows ->
     exists wrapped,
       result (LoadPreferredDuoDevice p username s) = (None, Some wrapped) /\
       errors_Unwrap wrapped = Some e) /\
  (forall msg, err = Some (wrapError msg sql_ErrNoRows) ->
     errors_Is (wrapError msg sql_ErrNoRows) sql_ErrNoRows = true /\
     exists wrapped,
       result (LoadPreferredDuoDevice p username s) = (None, Some wrapped) /\
       errors_Unwrap wrapped = Some (wrapError msg sql_ErrNoRows)).
Proof.
  intros Hq.
  unfold LoadPreferredDuoDevice, bind, QueryRowxContext_StructScan, perform, ret,
    result.
  rewrite Hq. simpl. destruct err as [e|]; simpl.
  - case_decide as He; simpl.
    + subst e. split; [split; [intros [? [=]] | discriminate]|].
      split; [discriminate|]. split; [reflexivity|].
      split; [intros e' [= <-] Hne; contradiction|]. intros msg [=].
    + split; [split; [intros [? [=]] | discriminate]|].
      split; [discriminate|]. split; [intros [= ->]; contradiction|].
      split.
      * intros e' [= <-] _. eexists. split; reflexivity.
      * intros msg [= ->]. split; [reflexivity|]. eexists. split; reflexivity.
  - split; [split; [reflexivity | eauto]|].
    split; [reflexivity|]. split; [discriminate|].
    split; [intros ? [=] | intros ? [=]].
Qed.

Lemma revokeQuery_None (p : SQLProvider) (sessionType : OAuth2SessionType) :
  revokeQuery p sessionType = None <-> sessionType ∉ knownOAuth2SessionTypes.
Proof.
  unfold revokeQuery, knownOAuth2SessionTypes. rewrite !not_elem_of_cons.
  repeat case_decide;
    (split;
     [ intros Hx; try discriminate Hx; repeat split; try assumption;
       apply not_elem_of_nil
     | intros (Hn1 & Hn2 & Hn3 & Hn4 & Hn5 & _); try contradiction; reflexivity ]).
Qed.

Lemma revokeByRequestIDQuery_None (p : SQLProvider) (sessionType : OAuth2SessionType) :
  revokeByRequestIDQuery p sessionType = None <->
  sessionType ∉ knownOAuth2SessionTypes.
Proof.
  unfold revokeByRequestIDQuery, knownOAuth2SessionTypes. rewrite !not_elem_of_cons.
  repeat case_decide;
    (split;
     [ intros Hx; try discriminate Hx; repeat split; try assumption;
       apply not_elem_of_nil
     | intros (Hn1 & Hn2 & Hn3 & Hn4 & Hn5 & _); try contradiction; reflexivity ]).
Qed.

Lemma NoDup_knownOAuth2SessionTypes :
  NoDup knownOAuth2SessionTypes ->
  OAuth2SessionTypeAuthorizeCode <> OAuth2SessionTypeAccessToken /\
  OAuth2SessionTypeAuthorizeCode <> OAuth2SessionTypeRefreshToken /\
  OAuth2SessionTypeAuthorizeCode <> OAuth2SessionTypePKCEChallenge /\
  OAuth2SessionTypeAuthorizeCode <> OAuth2SessionTypeOpenIDConnect /\
  OAuth2SessionTypeAccessToken <> OAuth2SessionTypeRefreshToken /\
  OAuth2SessionTypeAccessToken <> OAuth2SessionTypePKCEChallenge /\
  OAuth2SessionTypeAccessToken <> OAuth2SessionTypeOpenIDConnect /\
  OAuth2SessionTypeRefreshToken <> OAuth2SessionTypePKCEChallenge /\
  OAuth2SessionTypeRefreshToken <> OAuth2SessionTypeOpenIDConnect /\
  OAuth2SessionTypePKCEChallenge <> OAuth2SessionTypeOpenIDConnect.
Proof.
  unfold knownOAuth2SessionTypes.
  rewrite !NoDup_cons, !not_elem_of_cons.
  intros ((? & ? & ? & ? & _) & (? & ? & ? & _) & (? & ? & _) & (? & _) & _).
  repeat split; assumption.
Qed.

(** One run of either revoke function on a query: a single statement with
    the id as its only argument. *)
Lemma revoke_by_query (p : SQLProvider) (sessionType : OAuth2SessionType)
    (id query : string) (s : S) :
  (revokeQuery p sessionType = Some query ->
   exists err,
     events (RevokeOAuth2Session p sessionType id s) =
       [EvExecContext query [ArgString id] err]) /\
  (revokeByRequestIDQuery p sessionType = Some query ->
   exists err,
     events (RevokeOAuth2SessionByRequestID p sessionType id s) =
       [EvExecContext query [ArgString id] err]).
Proof.
  split; intros Hq.
  - unfold RevokeOAuth2Session. rewrite Hq.
    unfold bind, ExecContext, perform, ret, events.
    destruct (db_ExecContext query [ArgString id] s) as [[e|] s1]; simpl; eauto.
  - unfold RevokeOAuth2SessionByRequestID. rewrite Hq.
    unfold bind, ExecContext, perform, ret, events.
    destruct (db_ExecContext query [ArgString id] s) as [[e|] s1]; simpl; eauto.
Qed.

(** X17.  [RevokeOAuth2Session] and [RevokeOAuth2SessionByRequestID] on a
    session type that is none of the five known ones perform no operation
    and return an error that wraps nothing.  On a known type they execute
    one statement with the signature (the request id) as its only argument,
    and return nil exactly when it succeeds; its error comes back wrapped.
    The statement is the one of the type: for each of the five types (which
    are pairwise different) the authorize code, access token, refresh token,
    PKCE request and OpenID Connect revoke query of the provider, by
    signature for the first function and by request id for the second. *)
Theorem RevokeOAuth2Session_effects (p : SQLProvider)
    (sessionType : OAuth2SessionType) (id : string) (s : S) :
  (sessionType ∉ knownOAuth2SessionTypes ->
   (events (RevokeOAuth2Session p sessionType id s) = [] /\
    final (RevokeOAuth2Session p sessionType id s) = s /\
    exists err, result (RevokeOAuth2Session p sessionType id s) = Some err /\
                errors_Unwrap err = None) /\
   (events (RevokeOAuth2SessionByRequestID p sessionType id s) = [] /\
    final (RevokeOAuth2SessionByRequestID p sessionType id s) = s /\
    exists err, result (RevokeOAuth2SessionByRequestID p sessionType id s) = Some err /\
                errors_Unwrap err = None)) /\
  (sessionType ∈ knownOAuth2SessionTypes ->
   (exists query err,
      events (RevokeOAuth2Session p sessionType id s) =
        [EvExecContext query [ArgString id] err] /\
      (result (RevokeOAuth2Session p sessionType id s) = None <-> err = None) /\
      (forall e, err = Some e ->
         exists wrapped,
           result (RevokeOAuth2Session p sessionType id s) = Some wrapped /\
           errors_Unwrap wrapped = Some e)) /\
   (exists query err,
      events (RevokeOAuth2SessionByRequestID p sessionType id s) =
        [EvExecContext query [ArgString id] err] /\
      (result (RevokeOAuth2SessionByRequestID p sessionType id s) = None <->
       err = None) /\
      (forall e, err = Some e ->
         exists wrapped,
           result (RevokeOAuth2SessionByRequestID p sessionType id s) = Some wrapped /\
           errors_Unwrap wrapped = Some e))) /\
  (NoDup knownOAuth2SessionTypes ->
   (sessionType = OAuth2SessionTypeAuthorizeCode ->
    (exists err,
       events (RevokeOAuth2Session p sessionType id s) =
         [EvExecContext (sqlRevokeOAuth2AuthorizeCodeSession p) [ArgString id] err]) /\
    (exists err,
       events (RevokeOAuth2SessionByRequestID p sessionType id s) =
         [EvExecContext (sqlRevokeOAuth2AuthorizeCodeSessionByRequestID p) [ArgString id] err])) /\
   (sessionType = OAuth2SessionTypeAccessToken ->
    (exists err,
       events (RevokeOAuth2Session p sessionType id s) =
         [EvExecContext (sqlRevokeOAuth2AccessTokenSession p) [ArgString id] err]) /\
    (exists err,
       events (RevokeOAuth2SessionByRequestID p sessionType id s) =
         [EvExecContext (sqlRevokeOAuth2AccessTokenSessionByRequestID p) [ArgString id] err])) /\
   (sessionType = OAuth2SessionTypeRefreshToken ->
    (exists err,
       events (RevokeOAuth2Session p sessionType id s) =
         [EvExecContext (sqlRevokeOAuth2RefreshTokenSession p) [ArgString id] err]) /\
    (exists err,
       events (RevokeOAuth2SessionByRequestID p sessionType id s) =
         [EvExecContext (sqlRevokeOAuth2RefreshTokenSessionByRequestID p) [ArgString id] err])) /\
   (sessionType = OAuth2SessionTypePKCEChallenge ->
    (exists err,
       events (RevokeOAuth2Session p sessionType id s) =
         [EvExecContext (sqlRevokeOAuth2PKCERequestSession p) [ArgString id] err]) /\
    (exists err,
       events (RevokeOAuth2SessionByRequestID p sessionType id s) =
         [EvExecContext (sqlRevokeOAuth2PKCERequestSessionByRequestID p) [ArgString id] err])) /\
   (sessionType = OAuth2SessionTypeOpenIDConnect ->
    (exists err,
       events (RevokeOAuth2Session p sessionType id s) =
         [EvExecContext (sqlRevokeOAuth2OpenIDConnectSession p) [ArgString id] err]) /\
    (exists err,
       events (RevokeOAuth2SessionByRequestID p sessionType id s) =
         [EvExecContext (sqlRevokeOAuth2OpenIDConnectSessionByRequestID p) [ArgString id] err]))).
Proof.
  split; [|split].
  - intros Hunknown.
    pose proof (proj2 (revokeQuery_None p sessionType) Hunknown) as Hq.
    pose proof (proj2 (revokeByRequestIDQuery_None p sessionType) Hunknown) as Hq'.
    unfold RevokeOAuth2Session, RevokeOAuth2SessionByRequestID. rewrite Hq, Hq'.
    split; (split; [reflexivity|]; split; [reflexivity|]);
      eexists; split; reflexivity.
  - intros Hknown. split.
    + destruct (revokeQuery p sessionType) as [query|] eqn:Hq.
      * unfold RevokeOAuth2Session. rewrite Hq.
        unfold bind, ExecContext, perform, ret, result, events.
        destruct (db_ExecContext query [ArgString id] s) as [[e|] s1]; simpl.
        -- exists query, (Some e). split; [reflexivity|].
           split; [split; discriminate|].
           intros e' [= <-]. eexists. split; reflexivity.
        -- exists query, None. split; [reflexivity|].
           split; [split; reflexivity|]. intros e' [=].
      * apply revokeQuery_None in Hq. contradiction.
    + destruct (revokeByRequestIDQuery p sessionType) as [query|] eqn:Hq.
      * unfold RevokeOAuth2SessionByRequestID. rewrite Hq.
        unfold bind, ExecContext, perform, ret, result, events.
        destruct (db_ExecContext query [ArgString id] s) as [[e|] s1]; simpl.
        -- exists query, (Some e). split; [reflexivity|].
           split; [split; discriminate|].
           intros e' [= <-]. eexists. split; reflexivity.
        -- exists query, None. split; [reflexivity|].
           split; [split; reflexivity|]. intros e' [=].
      * apply revokeByRequestIDQuery_None in Hq. contradiction.
  - intros Hnd.
    destruct (NoDup_knownOAuth2SessionTypes Hnd)
      as (H12 & H13 & H14 & H15 & H23 & H24 & H25 & H34 & H35 & H45).
    repeat apply conj; intros ->;
      (split;
       [ apply (proj1 (revoke_by_query p _ id _ s)); unfold revokeQuery
       | apply (proj2 (revoke_by_query p _ id _ s)); unfold revokeByRequestIDQuery ]);
      repeat case_decide; congruence.
Qed.

End ProviderProperties.

End SQLProviderFacts.

(** * getWebAuthnUser over the SQL provider *)
Section WebAuthnOverSQL.
Context `{sql_provider.StorageDeclarations} {S : Type} `{!sql_provider.Database S}.

(** X14.  [getWebAuthnUser] with the SQL provider behind the context.  A
    user is returned exactly when the select of the devices succeeded and
    every public key decrypted, and the user's devices are then the rows
    selected, in order, with their keys decrypted; in every other case no
    user is returned.  A select that answers no rows and no error gives a
    user with no devices and no error.  A select that reports
    [sql.ErrNoRows], directly or wrapped, gives no user and the error
    [ErrNoWebauthnDevice]. *)
Theorem getWebAuthnUser_sql (p : sql_provider.SQLProvider) (s s1 : S)
    (userSession : session.UserSession)
    (rows : list sql_provider.WebauthnDevice) (err : option error) :
  sql_provider.db_SelectContext sql_provider.DestWebauthnDevices
    (sql_provider.sqlSelectWebauthnDevicesByUsername p)
    [sql_provider.ArgString (session.Username userSession)] [] s
    = ((rows, err), s1) ->
  (forall user,
     fst (getWebAuthnUser {| Providers_StorageProvider := sqlStorageProvider p s |}
            userSession) = Some user ->
     err = None /\
     Forall (fun d => snd (sql_provider.decrypt (sql_provider.PublicKey d)) = None) rows /\
     Devices user = map sql_provider.decrypted rows /\
     Username user = session.Username userSession) /\
  (fst (getWebAuthnUser {| Providers_StorageProvider := sqlStorageProvider p s |}
          userSession) = None <->
   err <> None \/
   ~ Forall (fun d => snd (sql_provider.decrypt (sql_provider.PublicKey d)) = None) rows) /\
  (err = None -> rows = [] ->
   getWebAuthnUser {| Providers_StorageProvider := sqlStorageProvider p s |}
     userSession =
     (Some {| Username := session.Username userSession;
              DisplayName :=
                if decide (session.DisplayName userSession = "")
                then session.Username userSession
                else session.DisplayName userSession;
              Devices := [] |},
      None)) /\
  (forall e, err = Some e -> errors_Is e sql_ErrNoRows = true ->
     getWebAuthnUser {| Providers_StorageProvider := sqlStorageProvider p s |}
       userSession = (None, Some sql_provider.ErrNoWebauthnDevice)).
Proof.
  intros Hsel.
  destruct (SQLProviderFacts.LoadWebauthnDevicesByUsername_cases
              p (session.Username userSession) s s1 rows err Hsel)
    as (_ & Hok & Hdevices & _ & _ & Hnorows).
  unfold getWebAuthnUser. simpl.
  destruct (sql_provider.result
              (sql_provider.LoadWebauthnDevicesByUsername p
                 (session.Username userSession) s)) as [devices e] eqn:Hload.
  simpl in Hok, Hdevices. destruct e as [e|].
  - split; [intros user [=]|]. split; [|split].
    + split; [|reflexivity]. intros _.
      destruct err as [e0|]; [left; discriminate|]. right. intros Hall.
      assert (Hx : Some e = None) by (apply Hok; auto). discriminate.
    + intros -> ->.
      assert (Hx : Some e = None) by (apply Hok; split; [reflexivity|constructor]).
      discriminate.
    + intros e0 He0 Hrows. specialize (Hnorows e0 He0 Hrows). congruence.
  - destruct (proj1 Hok eq_refl) as [-> Hall].
    split; [|split; [|split]].
    + intros user [= <-]. simpl. rewrite (Hdevices eq_refl).
      split; [reflexivity|]. split; [exact Hall|]. split; [reflexivity|].
      case_decide; reflexivity.
    + split; [discriminate|]. intros [Hx | Hx]; [contradiction Hx; reflexivity|].
      contradiction.
    + intros _ ->. rewrite (Hdevices eq_refl). simpl.
      case_decide; reflexivity.
    + intros e0 [=].
Qed.

End WebAuthnOverSQL.
(** * More properties at concrete inputs *)

Lemma WithConfig_WithEndpointConfig_order_witness :
  WithConfig (WithEndpointConfig fresh (endpoint "forward-auth" ["HeaderAuthorization"]))
    (Some (configuration "300" "example.com")) =
  WithEndpointConfig (WithConfig fresh (Some (configuration "300" "example.com")))
    (endpoint "forward-auth" ["HeaderAuthorization"]).
Proof.
  apply (WithConfig_WithEndpointConfig_order fresh
           (endpoint "forward-auth" ["HeaderAuthorization"])
           (Some (configuration "300" "example.com"))).
  intros (s & Hin & Hname). simpl in Hin.
  apply list_elem_of_singleton in Hin. subst s. discriminate Hname.
Defined.

Lemma Build_cookie_intervals_agree_witness :
  300000000000 =
  RefreshInterval
    (authz_config
       (Build (WithEndpointConfig
                 (WithConfig fresh (Some (configuration "300" "example.com")))
                 (endpoint "auth-request" [])))).
Proof.
  assert (Hin : NewCookieSessionAuthnStrategy 300000000000
                  ∈ authz_strategies
                      (Build (WithEndpointConfig
                                (WithConfig fresh
                                   (Some (configuration "300" "example.com")))
                                (endpoint "auth-request" []))))
    by apply list_elem_of_further, list_elem_of_here.
  destruct (Build_cookie_intervals_agree
              (WithConfig fresh (Some (configuration "300" "example.com")))
              (endpoint "auth-request" []) 300000000000 Hin) as [Hr _].
  exact Hr.
Defined.

Lemma WithEndpointConfig_Build_strategies_witness :
  authz_strategies
    (Build (WithEndpointConfig fresh (endpoint "forward-auth" ["Basic"]))) =
    [NewHeaderProxyAuthorizationAuthnStrategy;
     NewCookieSessionAuthnStrategy (-1000000000)] /\
  authz_strategies
    (Build (WithEndpointConfig fresh
              (endpoint "forward-auth" ["CookieSession"; "HeaderAuthorization"]))) =
    [NewCookieSessionAuthnStrategy (-1000000000);
     NewHeaderAuthorizationAuthnStrategy].
Proof.
  split.
  - destruct (WithEndpointConfig_Build_strategies fresh
                (endpoint "forward-auth" ["Basic"])) as (_ & Hdefault & _).
    apply Hdefault; [|reflexivity|discriminate|discriminate].
    intros s Hin. simpl in Hin. apply list_elem_of_singleton in Hin. subst s.
    unfold recognizedStrategyNames. simpl.
    rewrite !not_elem_of_cons. repeat split; try discriminate.
    apply not_elem_of_nil.
  - destruct (WithEndpointConfig_Build_strategies fresh
                (endpoint "forward-auth" ["CookieSession"; "HeaderAuthorization"]))
      as (Hnamed & _).
    apply Hnamed. discriminate.
Defined.

Lemma StartupCheck_nil_witness :
  exists (failures : list error) (r1 r2 : option error),
    (length failures < 19)%nat /\
    sql_provider.events
      (@sql_provider.StartupCheck example.declarations example.World
         example.database example.provider example.world) =
      (sql_provider.failedPings failures ++
         [sql_provider.EvPing None;
          sql_provider.EvSchemaEncryptionCheckKey false r1;
          sql_provider.EvSchemaMigrate true 2147483640 r2])%list.
Proof.
  destruct (@SQLProviderFacts.StartupCheck_nil example.declarations example.World
              example.database example.provider example.world eq_refl)
    as (_ & failures & r1 & r2 & Hlen & Hev & _).
  exists failures, r1, r2. split; [exact Hlen | exact Hev].
Defined.

Lemma BeginTX_Commit_Rollback_witness :
  sql_provider.result
    (@sql_provider.Commit example.declarations example.World example.database
       example.provider
       (sql_provider.WithValue sql_provider.Background "tx" (sql_provider.ValueTx 1%nat))
       example.world) = None /\
  sql_provider.result
    (@sql_provider.Rollback example.declarations example.World example.database
       example.provider sql_provider.Background example.world) =
    Some (errors_New "could not retrieve tx").
Proof.
  destruct (@SQLProviderFacts.BeginTX_Commit_Rollback example.declarations
              example.World example.database example.provider
              sql_provider.Background example.world)
    as (_ & Hbegun & Hnone).
  split.
  - destruct (Hbegun (sql_provider.WithValue sql_provider.Background "tx"
                        (sql_provider.ValueTx 1%nat)) eq_refl)
      as (tx & _ & _ & Hkey & _ & Hcommit & _).
    injection Hkey as <-.
    destruct (Hcommit example.world) as (-> & _). reflexivity.
  - destruct (Hnone ltac:(discriminate) example.world) as (_ & ->). reflexivity.
Defined.

Lemma LoadUserInfo_shape_witness :
  exists method rest,
    @sql_provider.PossibleMethods example.declarations = method :: rest /\
    [sql_provider.ArgString "harry"; sql_provider.ArgString "totp"] =
    [sql_provider.ArgString "harry"; sql_provider.ArgString method].
Proof.
  destruct (@SQLProviderFacts.LoadUserInfo_shape example.declarations example.World
              example.database example.provider "harry" example.world)
    as (_ & _ & (err0 & _ & Hexec & _) & _).
  destruct (Hexec "upsert preferred method"
              [sql_provider.ArgString "harry"; sql_provider.ArgString "totp"] None)
    as (_ & _ & method & rest & Hm & Hargs).
  - apply list_elem_of_further, list_elem_of_here.
  - exists method, rest. split; [exact Hm | exact Hargs].
Defined.

Lemma FindIdentityVerification_found_witness :
  fst (sql_provider.result
         (@sql_provider.FindIdentityVerification example.declarations example.World
            example.database example.provider "fresh" example.world)) = true /\
  sql_provider.result
    (@sql_provider.FindIdentityVerification example.declarations example.World
       example.database example.provider "used" example.world) =
    (false, Some (errors_New "the token has already been consumed")).
Proof.
  split.
  - apply (@SQLProviderFacts.FindIdentityVerification_found example.declarations
             example.World example.database example.provider "fresh"
             example.world example.world example.world
             {| sql_provider.Consumed := None; sql_provider.ExpiresAt := 2000 |}
             None 2000 eq_refl eq_refl).
    split; [reflexivity|]. split; [reflexivity|]. simpl. lia.
  - apply (@SQLProviderFacts.FindIdentityVerification_found example.declarations
             example.World example.database example.provider "used"
             example.world example.world example.world
             {| sql_provider.Consumed := Some 500; sql_provider.ExpiresAt := 100 |}
             None 2000 eq_refl eq_refl); [reflexivity | discriminate].
Defined.

Lemma LoadWebauthnDevicesByUsername_all_or_nothing_witness :
  fst (sql_provider.result
         (@sql_provider.LoadWebauthnDevicesByUsername example.declarations
            example.World example.database example.provider "john" example.world)) =
    [ {| sql_provider.Device_ID := 1; sql_provider.Device_Username := "john";
         sql_provider.KID := [Byte.x0a]; sql_provider.PublicKey := [Byte.x2a] |};
      {| sql_provider.Device_ID := 2; sql_provider.Device_Username := "john";
         sql_provider.KID := [Byte.x0b]; sql_provider.PublicKey := [Byte.x2b] |} ] /\
  fst (sql_provider.result
         (@sql_provider.LoadWebauthnDevicesByUsername example.declarations
            example.World example.database example.provider "harry" example.world)) = [].
Proof.
  split.
  - destruct (@SQLProviderFacts.LoadWebauthnDevicesByUsername_all_or_nothing
                example.declarations example.World example.database example.provider
                "john" example.world example.world _ None eq_refl)
      as (_ & Hok & Hdevices & _).
    rewrite Hdevices; [reflexivity|]. apply Hok. split; [reflexivity|].
    repeat constructor.
  - destruct (@SQLProviderFacts.LoadWebauthnDevicesByUsername_all_or_nothing
                example.declarations example.World example.database example.provider
                "harry" example.world example.world _ None eq_refl)
      as (_ & _ & _ & Hnothing & _).
    apply Hnothing. discriminate.
Defined.

Lemma getWebAuthnUser_sql_witness :
  getWebAuthnUser
    {| Providers_StorageProvider :=
         @sqlStorageProvider example.declarations example.World example.database
           example.provider example.world |}
    {| session.Username := "james"; session.DisplayName := "James" |} =
    (None, Some (errors_New "no webauthn device found")) /\
  getWebAuthnUser
    {| Providers_StorageProvider :=
         @sqlStorageProvider example.declarations example.World example.database
           example.provider example.world |}
    {| session.Username := "anna"; session.DisplayName := "" |} =
    (Some {| Username := "anna"; DisplayName := "anna"; Devices := [] |}, None) /\
  fst (getWebAuthnUser
         {| Providers_StorageProvider :=
              @sqlStorageProvider example.declarations example.World
                example.database example.provider example.world |}
         {| session.Username := "harry"; session.DisplayName := "Harry" |}) = None.
Proof.
  split; [|split].
  - destruct (@getWebAuthnUser_sql example.declarations example.World example.database
                example.provider example.world example.world
                {| session.Username := "james"; session.DisplayName := "James" |}
                [] (Some sql_ErrNoRows) eq_refl)
      as (_ & _ & _ & Hnorows).
    exact (Hnorows sql_ErrNoRows eq_refl eq_refl).
  - destruct (@getWebAuthnUser_sql example.declarations example.World example.database
                example.provider example.world example.world
                {| session.Username := "anna"; session.DisplayName := "" |}
                [] None eq_refl)
      as (_ & _ & Hempty & _).
    exact (Hempty eq_refl eq_refl).
  - destruct (@getWebAuthnUser_sql example.declarations example.World example.database
                example.provider example.world example.world
                {| session.Username := "harry"; session.DisplayName := "Harry" |}
                _ None eq_refl)
      as (_ & Hnone & _).
    apply Hnone. right. intros Hall.
    apply Forall_cons in Hall as [_ Hall]. apply Forall_cons in Hall as [Hkey _].
    discriminate Hkey.
Defined.

Lemma LoadTOTPConfiguration_result_witness :
  sql_provider.result
    (@sql_provider.LoadTOTPConfiguration example.declarations example.World
       example.database example.provider "james" example.world) =
    (None, Some (errors_New "no TOTP configuration for user")) /\
  (forall config,
     fst (sql_provider.result
            (@sql_provider.LoadTOTPConfiguration example.declarations example.World
               example.database example.provider "john" example.world)) = Some config ->
     sql_provider.Secret config = [Byte.x53]).
Proof.
  split.
  - destruct (@SQLProviderFacts.LoadTOTPConfiguration_result example.declarations
                example.World example.database example.provider "james"
                example.world example.world _ (Some (wrapError "scan" sql_ErrNoRows))
                eq_refl) as (_ & _ & _ & Hnorows).
    exact (Hnorows _ eq_refl eq_refl).
  - intros config Hconfig.
    destruct (@SQLProviderFacts.LoadTOTPConfiguration_result example.declarations
                example.World example.database example.provider "john"
                example.world example.world _ None eq_refl) as (_ & _ & Hrow & _).
    destruct (Hrow config Hconfig) as (-> & _). reflexivity.
Defined.

Lemma LoadPreferredDuoDevice_result_witness :
  sql_provider.result
    (@sql_provider.LoadPreferredDuoDevice example.declarations example.World
       example.database example.provider "harry" example.world) =
    (None, Some (errors_New "no Duo device and method saved")) /\
  exists wrapped,
    sql_provider.result
      (@sql_provider.LoadPreferredDuoDevice example.declarations example.World
         example.database example.provider "james" example.world) =
      (None, Some wrapped) /\
    errors_Unwrap wrapped = Some (wrapError "scan" sql_ErrNoRows).
Proof.
  split.
  - destruct (@SQLProviderFacts.LoadPreferredDuoDevice_result example.declarations
                example.World example.database example.provider "harry"
                example.world example.world _ (Some sql_ErrNoRows) eq_refl)
      as (_ & _ & Hnorows & _).
    exact (Hnorows eq_refl).
  - destruct (@SQLProviderFacts.LoadPreferredDuoDevice_result example.declarations
                example.World example.database example.provider "james"
                example.world example.world _
                (Some (wrapError "scan" sql_ErrNoRows)) eq_refl)
      as (_ & _ & _ & _ & Hwrapped).
    destruct (Hwrapped "scan" eq_refl) as (_ & Hw). exact Hw.
Defined.

Lemma RevokeOAuth2Session_effects_witness :
  sql_provider.events
    (@sql_provider.RevokeOAuth2Session example.declarations example.World
       example.database example.provider "device code" "sig" example.world) = [] /\
  (exists err,
     sql_provider.events
       (@sql_provider.RevokeOAuth2Session example.declarations example.World
          example.database example.provider "access token" "sig" example.world) =
       [sql_provider.EvExecContext "revoke access token"
          [sql_provider.ArgString "sig"] err]) /\
  (exists err,
     sql_provider.events
       (@sql_provider.RevokeOAuth2SessionByRequestID example.declarations
          example.World example.database example.provider "refresh token" "req"
          example.world) =
       [sql_provider.EvExecContext "revoke refresh token by id"
          [sql_provider.ArgString "req"] err]).
Proof.
  assert (Hnd : NoDup (@sql_provider.knownOAuth2SessionTypes example.declarations)).
  { unfold sql_provider.knownOAuth2SessionTypes. simpl.
    rewrite !NoDup_cons, !not_elem_of_cons.
    repeat split; try discriminate; try apply not_elem_of_nil. apply NoDup_nil_2. }
  split; [|split].
  - destruct (@SQLProviderFacts.RevokeOAuth2Session_effects example.declarations
                example.World example.database example.provider
                "device code" "sig" example.world) as (Hunknown & _).
    apply Hunknown. unfold sql_provider.knownOAuth2SessionTypes. simpl.
    rewrite !not_elem_of_cons. repeat split; try discriminate.
    apply not_elem_of_nil.
  - destruct (@SQLProviderFacts.RevokeOAuth2Session_effects example.declarations
                example.World example.database example.provider
                "access token" "sig" example.world) as (_ & _ & Htable).
    destruct (Htable Hnd) as (_ & Haccess & _).
    destruct (Haccess eq_refl) as [Hsignature _]. exact Hsignature.
  - destruct (@SQLProviderFacts.RevokeOAuth2Session_effects example.declarations
                example.World example.database example.provider
                "refresh token" "req" example.world) as (_ & _ & Htable).
    destruct (Htable Hnd) as (_ & _ & Hrefresh & _).
    destruct (Hrefresh eq_refl) as [_ Hrequest]. exact Hrequest.
Defined.
